(** * mh_dist_polygon.py: the resumable per-village extraction

    A shallow embedding of [BhuNakshaExtractor] (src/mh_dist_polygon.py):
    the identifier builder [get_village_gis_code], the output path scheme
    and the resumable extraction [extract_and_save_village_data].

    Python values that come out of [json.load] / [response.json()] are
    modelled by the type [json]; a Python [dict] is a finite map with string
    keys (the order of the keys, which only shows in the text of a file, is
    not kept), a Python [set] of plot numbers a finite set of hashable keys.
    Floating point numbers are left out of the model.  Exceptions are
    explicit: an operation that can raise returns [exn + A], and a run ends
    with the file system, the trace of its calls and prints, and the
    exception it raised, if any. *)

From stdpp Require Import base strings gmap list sets option.
From Stdlib Require Import Ascii ZArith.

Set Warnings "-register-all,-clear-no-such-hyp".

Local Open Scope string_scope.
Local Open Scope list_scope.
Local Open Scope Z_scope.
Local Open Scope nat_scope.

(** ** Python values *)

Inductive json :=
| JNull
| JBool (b : bool)
| JInt (n : Z)
| JStr (s : string)
| JList (l : list json)
| JDict (d : gmap string json).

(** Exceptions that the modelled code can raise. *)
Inductive exn :=
| AttributeError
| TypeError
| KeyError
| UnicodeDecodeError
| OSError.

(** Error monad for operations that may raise. *)
#[global] Instance exn_ret : MRet (sum exn) := fun A a => inr a.

#[global] Instance exn_bind : MBind (sum exn) := fun A B k m =>
  match m with
  | inl e => inl e
  | inr a => k a
  end.

(** [bool(v)]: Python truthiness. *)
Definition truthy (v : json) : bool :=
  match v with
  | JNull => false
  | JBool b => b
  | JInt n => negb (Z.eqb n 0)
  | JStr s => negb (String.eqb s "")
  | JList l => negb (Nat.eqb (List.length l) 0)
  | JDict d => negb (Nat.eqb (size d) 0)
  end.

(** Hashable values as the elements of a Python [set]: [True == 1] and
    [False == 0] hash and compare alike, lists and dicts are unhashable. *)
Inductive hkey :=
| HNone
| HInt (n : Z)
| HStr (s : string).

#[global] Instance hkey_eq_dec : EqDecision hkey.
Proof. solve_decision. Defined.

#[global] Instance hkey_countable : Countable hkey.
Proof.
  refine (inj_countable'
    (fun k => match k with
              | HNone => inl ()
              | HInt n => inr (inl n)
              | HStr s => inr (inr s)
              end)
    (fun x => match x with
              | inl _ => HNone
              | inr (inl n) => HInt n
              | inr (inr s) => HStr s
              end) _).
  by intros [].
Defined.

Definition hash_key (v : json) : option hkey :=
  match v with
  | JNull => Some HNone
  | JBool b => Some (HInt (if b then 1%Z else 0%Z))
  | JInt n => Some (HInt n)
  | JStr s => Some (HStr s)
  | JList _ | JDict _ => None
  end.

(** ** Strings and paths *)

(** [s.replace(old, new)] for one-character [old] and [new]. *)
Fixpoint replace_char (old new : ascii) (s : string) : string :=
  match s with
  | EmptyString => EmptyString
  | String c r =>
      String (if Ascii.eqb c old then new else c) (replace_char old new r)
  end.

Fixpoint has_char (a : ascii) (s : string) : bool :=
  match s with
  | EmptyString => false
  | String c r => Ascii.eqb c a || has_char a r
  end.

Definition starts_with_sep (s : string) : bool :=
  match s with
  | String c _ => Ascii.eqb c "/"
  | EmptyString => false
  end.

Fixpoint ends_with_sep (s : string) : bool :=
  match s with
  | EmptyString => false
  | String c EmptyString => Ascii.eqb c "/"
  | String _ r => ends_with_sep r
  end.

(** [os.path.join(a, b)] of posixpath. *)
Definition path_join (a b : string) : string :=
  if starts_with_sep b then b
  else if String.eqb a "" || ends_with_sep a then a +:+ b
  else a +:+ "/" +:+ b.

(** The village name as line 108 cleans it. *)
Definition sanitize (s : string) : string :=
  replace_char "/" "_" (replace_char " " "_" s).

(** Lines 106 and 108: the taluk directory and the output file. *)
Definition taluk_dir_of (output_dir taluk_name : string) : string :=
  path_join output_dir (replace_char " " "_" taluk_name).

Definition output_path_of (output_dir taluk_name village_name : string) : string :=
  path_join (taluk_dir_of output_dir taluk_name)
    (sanitize village_name +:+ ".geojson").

(** ** The extractor object *)

(** [self.state] and [self.category]; a code is a [str] or [None]. *)
Record BhuNakshaExtractor := {
  state : string;
  category : option string;
}.

Definition code_truthy (c : option string) : bool :=
  match c with
  | Some s => negb (String.eqb s "")
  | None => false
  end.

(** What an f-string prints for a code. *)
Definition code_str (c : option string) : string :=
  match c with
  | Some s => s
  | None => "None"
  end.

(** Lines 64-68. *)
Definition get_village_gis_code (self : BhuNakshaExtractor)
    (map_type_code district_code taluk_code village_code : option string)
    : option string :=
  if negb (forallb code_truthy
             [category self; map_type_code; district_code; taluk_code; village_code])
  then None
  else Some (code_str (category self) +:+ code_str map_type_code +:+
             code_str district_code +:+ code_str taluk_code +:+
             code_str village_code).

(** ** The file system

    A path holds a directory or a regular file; the text of a file is a JSON
    document, something [json.load] rejects with [JSONDecodeError], or bytes
    that are not UTF-8.  Paths are compared as strings. *)

Inductive text :=
| TextJson (j : json)
| TextNotJson
| TextNotUtf8.

Inductive node :=
| Dir
| File (t : text).

(** The intermediate directories of a path, outermost first. *)
Fixpoint parents_from (pre s : string) : list string :=
  match s with
  | EmptyString => []
  | String c r =>
      (if Ascii.eqb c "/" && negb (String.eqb pre "") && negb (ends_with_sep pre)
       then [pre] else [])
      ++ parents_from (pre +:+ String c EmptyString) r
  end.

Definition parents (p : string) : list string := parents_from "" p.

Definition mkdir_exist_ok (p : string) (f : gmap string node) : exn + gmap string node :=
  match f !! p with
  | None => inr (<[p := Dir]> f)
  | Some Dir => inr f
  | Some (File _) => inl OSError
  end.

Fixpoint mkdir_all (ps : list string) (f : gmap string node) : exn + gmap string node :=
  match ps with
  | [] => inr f
  | p :: rest => f' ← mkdir_exist_ok p f; mkdir_all rest f'
  end.

(** [os.makedirs(p, exist_ok=True)]. *)
Definition makedirs (p : string) (f : gmap string node) : exn + gmap string node :=
  if String.eqb p "" then inl OSError else mkdir_all (parents p ++ [p]) f.

(** What the operating system does with the write of lines 190-191: it
    succeeds, [open] fails and leaves the file alone, or [json.dump] fails
    half way and leaves a truncated text. *)
Inductive write_result :=
| WriteOk
| WriteFailOpen
| WriteFailDump.

Definition write_file (path : string) (content : json) (r : write_result)
    (f : gmap string node) : bool * gmap string node :=
  match f !! path with
  | Some Dir => (false, f)
  | _ =>
      match r with
      | WriteOk => (true, <[path := File (TextJson content)]> f)
      | WriteFailOpen => (false, f)
      | WriteFailDump => (false, <[path := File TextNotJson]> f)
      end
  end.

(** ** The remote service and what the run leaves behind *)

(** The answers of the HTTP wrappers of lines 52-102, each with its own
    [try]/[except Exception]: [None] or [[]] stand for a failed call.  The
    plot list is a JSON array.  [get_plot_geometry] and [write_result_at]
    take the position in the plot list, since the service and the operating
    system may answer differently each time; the event [GetPlotGeometry]
    records that position with the call.  [read_refused] says that the
    operating system refuses to open the existing file for reading
    ([IOError]). *)
Record service := {
  get_village_info : string → json;
  get_plot_list : string → list json;
  get_plot_geometry : nat → string → json → json;
  wkt_to_geojson : json → json;
  write_result_at : nat → write_result;
  read_refused : bool;
}.

Inductive message :=
| FoundExisting (village : string) (n : nat)
| WarnUnreadable (village : string)
| SkipInvalidGis (village : string)
| NoPlotList (gis : string)
| TotalPlots (village : string) (n : nat)
| AllScraped (n : nat) (village : string)
| Processing (plot_no : json) (i total : nat)
| SaveError
| Finished (village : string) (n : nat).

Inductive event :=
| Print (m : message)
| Makedirs (p : string)
| GetVillageInfo (gis : string)
| GetPlotList (gis : string)
| GetPlotGeometry (i : nat) (gis : string) (plot_no : json)
| WriteFile (path : string) (content : json) (ok : bool)
| Sleep.

Record outcome := {
  out_fs : gmap string node;
  out_trace : list event;
  out_raised : option exn;
}.

(** ** Python operations on values *)

(** [v.get(k, dflt)]: only a dict has [get]. *)
Definition py_get (k : string) (dflt : json) (v : json) : exn + json :=
  match v with
  | JDict d => inr (default dflt (d !! k))
  | _ => inl AttributeError
  end.

Fixpoint string_chars (s : string) : list json :=
  match s with
  | EmptyString => []
  | String c r => JStr (String c EmptyString) :: string_chars r
  end.

(** [for x in v]: a dict yields its keys (the order is immaterial below:
    every key is a [str]). *)
Definition py_iter (v : json) : exn + list json :=
  match v with
  | JList l => inr l
  | JDict d => inr (JStr <$> (map_to_list d).*1)
  | JStr s => inr (string_chars s)
  | _ => inl TypeError
  end.

Definition py_len (v : json) : exn + nat :=
  match v with
  | JList l => inr (List.length l)
  | JDict d => inr (size d)
  | JStr s => inr (String.length s)
  | _ => inl TypeError
  end.

Fixpoint is_substring (p s : string) : bool :=
  String.prefix p s ||
  match s with
  | EmptyString => false
  | String _ r => is_substring p r
  end.

(** ['plotno' in v]. *)
Definition contains_plotno (v : json) : exn + bool :=
  match v with
  | JDict d => inr (bool_decide (is_Some (d !! "plotno")))
  | JList l =>
      inr (existsb (fun x => match x with
                             | JStr s => String.eqb s "plotno"
                             | _ => false
                             end) l)
  | JStr s => inr (is_substring "plotno" s)
  | _ => inl TypeError
  end.

(** [v['plotno']]. *)
Definition index_plotno (v : json) : exn + json :=
  match v with
  | JDict d =>
      match d !! "plotno" with
      | Some x => inr x
      | None => inl KeyError
      end
  | _ => inl TypeError
  end.

(** [s.add(v)]. *)
Definition set_add (v : json) (s : gset hkey) : exn + gset hkey :=
  match hash_key v with
  | Some k => inr ({[k]} ∪ s)
  | None => inl TypeError
  end.

(** ** Loading the existing file (lines 110-128) *)

Record locals := {
  all_features : json;
  existing_plot_nos : gset hkey;
  village_info : json;
}.

Definition fresh : locals :=
  {| all_features := JList []; existing_plot_nos := ∅; village_info := JDict ∅ |}.

(** Lines 122-123, one round of the loop of line 120. *)
Definition scan_feature (feature : json) (s : gset hkey) : exn + gset hkey :=
  props ← py_get "properties" (JDict ∅) feature;
  b ← contains_plotno props;
  if b : bool then v ← index_plotno props; set_add v s else inr s.

Fixpoint scan_features (features : list json) (s : gset hkey) : exn + gset hkey :=
  match features with
  | [] => inr s
  | feature :: rest => s' ← scan_feature feature s; scan_features rest s'
  end.

(** Lines 117-123 on the parsed document. *)
Definition load_document (data : json) : exn + locals :=
  features ← py_get "features" (JList []) data;
  metadata ← py_get "metadata" (JDict ∅) data;
  info ← py_get "village_info" (JDict ∅) metadata;
  items ← py_iter features;
  s ← scan_features items ∅;
  inr {| all_features := features; existing_plot_nos := s; village_info := info |}.

Inductive read_result :=
| ReadAbsent
| ReadFresh
| ReadLoaded (l : locals)
| ReadRaised (e : exn).

(** Lines 114-128: [IOError] (the path is a directory, or the read is
    refused) and [JSONDecodeError] are caught, anything else propagates. *)
Definition read_existing (refused : bool) (f : gmap string node)
    (path : string) : read_result :=
  match f !! path with
  | None => ReadAbsent
  | Some Dir => ReadFresh
  | Some (File text) =>
      if refused then ReadFresh
      else
        match text with
        | TextNotJson => ReadFresh
        | TextNotUtf8 => ReadRaised UnicodeDecodeError
        | TextJson data =>
            match load_document data with
            | inl e => ReadRaised e
            | inr l => ReadLoaded l
            end
        end
  end.

(** ** extract_and_save_village_data (lines 104-199) *)

Record loop_state := {
  ls_features : json;
  ls_existing : gset hkey;
  ls_fs : gmap string node;
  ls_trace : list event;
}.

Definition with_trace (st : loop_state) (trace : list event) : loop_state :=
  {| ls_features := ls_features st;
     ls_existing := ls_existing st;
     ls_fs := ls_fs st;
     ls_trace := trace |}.

Section VillageExtractor.
Variable self : BhuNakshaExtractor.
Variable svc : service.
Variable gis_code : option string.
Variables district_name taluk_name village_name output_dir : string.

Definition taluk_dir : string := taluk_dir_of output_dir taluk_name.
Definition output_path : string :=
  output_path_of output_dir taluk_name village_name.

(** Lines 160-166: the context keys, then [properties.update(plot_data)]. *)
Definition context_properties : gmap string json :=
  <["district" := JStr district_name]>
    (<["taluk" := JStr taluk_name]>
       (<["village" := JStr village_name]> ∅)).

Definition make_properties (plot_data : gmap string json) : gmap string json :=
  plot_data ∪ context_properties.

(** Lines 168-172. *)
Definition make_feature (geometry : json) (plot_data : gmap string json) : json :=
  JDict (<["type" := JStr "Feature"]>
           (<["geometry" := geometry]>
              (<["properties" := JDict (make_properties plot_data)]> ∅))).

(** Lines 176-186. *)
Definition make_metadata (info : json) (total_plots i : nat)
    (features : list json) : json :=
  JDict (<["district" := JStr district_name]>
        (<["taluk" := JStr taluk_name]>
        (<["village" := JStr village_name]>
        (<["village_info" := info]>
        (<["total_plots" := JInt (Z.of_nat total_plots)]>
        (<["successful_plots" := JInt (Z.of_nat (List.length features))]>
        (<["failed_plots" :=
             JInt (Z.of_nat (i + 1) - Z.of_nat (List.length features))]>
        (<["gis_code" := JStr (code_str gis_code)]>
        (<["state" := JStr (state self)]> ∅))))))))).

(** Lines 174-188. *)
Definition make_output (info : json) (total_plots i : nat)
    (features : list json) : json :=
  JDict (<["type" := JStr "FeatureCollection"]>
        (<["metadata" := make_metadata info total_plots i features]>
        (<["features" := JList features]> ∅))).

(** Lines 156-158: the feature of a plot, when the answer has a geometry
    that reprojects.  [None] is the path without a feature; a truthy
    answer that is no dict raises at [plot_data.get]. *)
Definition plot_feature (plot_data : json) : exn + option json :=
  if negb (truthy plot_data) then inr None
  else
    match plot_data with
    | JDict d =>
        let the_geom := default JNull (d !! "the_geom") in
        if negb (truthy the_geom) then inr None
        else
          let geometry := wkt_to_geojson svc the_geom in
          if negb (truthy geometry) then inr None
          else inr (Some (make_feature geometry d))
    | _ => inl AttributeError
    end.

(** Lines 189-194 and 196-197 for a feature list that was just extended. *)
Definition persist (info : json) (total_plots i : nat) (k : hkey)
    (features : list json) (st : loop_state) : loop_state :=
  let content := make_output info total_plots i features in
  let '(ok, f') := write_file output_path content (write_result_at svc i) (ls_fs st) in
  {| ls_features := JList features;
     ls_existing := if ok then {[k]} ∪ ls_existing st else ls_existing st;
     ls_fs := f';
     ls_trace := ls_trace st
                 ++ [WriteFile output_path content ok]
                 ++ (if ok then [] else [Print SaveError])
                 ++ [Sleep] |}.

(** One round of the loop of line 149.  [plot_no in existing_plot_nos]
    hashes the plot number, and only a list has the [append] of line 168. *)
Definition plot_step (info : json) (total_plots i : nat) (plot_no : json)
    (st : loop_state) : option exn * loop_state :=
  match hash_key plot_no with
  | None => (Some TypeError, st)
  | Some k =>
      if decide (k ∈ ls_existing st) then (None, st)
      else
        let st1 :=
          with_trace st
            (ls_trace st
             ++ [Print (Processing plot_no (i + 1) total_plots);
                 GetPlotGeometry i (code_str gis_code) plot_no]) in
        match plot_feature (get_plot_geometry svc i (code_str gis_code) plot_no) with
        | inl e => (Some e, st1)
        | inr None => (None, with_trace st1 (ls_trace st1 ++ [Sleep]))
        | inr (Some feature) =>
            match ls_features st1 with
            | JList xs =>
                (None, persist info total_plots i k (xs ++ [feature]) st1)
            | _ => (Some AttributeError, st1)
            end
        end
  end.

Fixpoint plot_loop (info : json) (total_plots i : nat) (plot_list : list json)
    (st : loop_state) : option exn * loop_state :=
  match plot_list with
  | [] => (None, st)
  | plot_no :: rest =>
      match plot_step info total_plots i plot_no st with
      | (Some e, st') => (Some e, st')
      | (None, st') => plot_loop info total_plots (S i) rest st'
      end
  end.

(** Lines 130-199, after the existing file was looked at. *)
Definition extract_from (l : locals) (f : gmap string node)
    (trace : list event) : outcome :=
  if negb (code_truthy gis_code) then
    {| out_fs := f;
       out_trace := trace ++ [Print (SkipInvalidGis village_name)];
       out_raised := None |}
  else
    let gis := code_str gis_code in
    let '(info, trace1) :=
      if negb (truthy (village_info l))
      then (get_village_info svc gis, trace ++ [GetVillageInfo gis])
      else (village_info l, trace) in
    let plot_list := get_plot_list svc gis in
    let trace2 := trace1 ++ [GetPlotList gis] in
    if negb (truthy (JList plot_list)) then
      {| out_fs := f;
         out_trace := trace2 ++ [Print (NoPlotList gis)];
         out_raised := None |}
    else
      let total_plots := List.length plot_list in
      let trace3 := trace2 ++ [Print (TotalPlots village_name total_plots)] in
      if Nat.eqb (size (existing_plot_nos l)) total_plots then
        {| out_fs := f;
           out_trace := trace3 ++ [Print (AllScraped total_plots village_name)];
           out_raised := None |}
      else
        match plot_loop info total_plots 0 plot_list
                {| ls_features := all_features l;
                   ls_existing := existing_plot_nos l;
                   ls_fs := f;
                   ls_trace := trace3 |} with
        | (Some e, st) =>
            {| out_fs := ls_fs st; out_trace := ls_trace st; out_raised := Some e |}
        | (None, st) =>
            match py_len (ls_features st) with
            | inl e =>
                {| out_fs := ls_fs st; out_trace := ls_trace st;
                   out_raised := Some e |}
            | inr n =>
                {| out_fs := ls_fs st;
                   out_trace := ls_trace st ++ [Print (Finished village_name n)];
                   out_raised := None |}
            end
        end.

Definition extract_and_save_village_data (f : gmap string node) : outcome :=
  match makedirs taluk_dir f with
  | inl e => {| out_fs := f; out_trace := [Makedirs taluk_dir]; out_raised := Some e |}
  | inr f1 =>
      let trace := [Makedirs taluk_dir] in
      match read_existing (read_refused svc) f1 output_path with
      | ReadRaised e => {| out_fs := f1; out_trace := trace; out_raised := Some e |}
      | ReadAbsent => extract_from fresh f1 trace
      | ReadFresh =>
          extract_from fresh f1 (trace ++ [Print (WarnUnreadable village_name)])
      | ReadLoaded l =>
          extract_from l f1
            (trace ++ [Print (FoundExisting village_name
                                (size (existing_plot_nos l)))])
      end
  end.

End VillageExtractor.

(** ** What is observed of a run *)

(** The tab character, and a name free of space, tab and ['/']. *)
Definition tab : ascii := ascii_of_nat 9.

Definition clean_name (s : string) : bool :=
  negb (has_char " " s) && negb (has_char tab s) && negb (has_char "/" s).

(** The plot numbers whose detail the run asked for, in order. *)
Definition fetched (trace : list event) : list json :=
  omap (fun e => match e with
                 | GetPlotGeometry _ _ p => Some p
                 | _ => None
                 end) trace.

Definition is_write (e : event) : bool :=
  match e with
  | WriteFile _ _ _ => true
  | _ => false
  end.

(** The feature that the call of round [i] for plot [p] leads to, if any. *)
Definition yield (svc : service) (district_name taluk_name village_name : string)
    (i : nat) (gis : string) (p : json) : option json :=
  match plot_feature svc district_name taluk_name village_name
          (get_plot_geometry svc i gis p) with
  | inr (Some feature) => Some feature
  | _ => None
  end.

(** The features that the calls of a trace led to, in order. *)
Definition yielded (svc : service) (district_name taluk_name village_name : string)
    (trace : list event) : list json :=
  omap (fun e => match e with
                 | GetPlotGeometry i gis p =>
                     yield svc district_name taluk_name village_name i gis p
                 | _ => None
                 end) trace.

(** [content.get('features', [])] of a written document. *)
Definition output_features (content : json) : list json :=
  match content with
  | JDict d =>
      match d !! "features" with
      | Some (JList l) => l
      | _ => []
      end
  | _ => []
  end.

(** A metadata counter of a written document. *)
Definition metadata_counter (key : string) (content : json) : option json :=
  match content with
  | JDict d =>
      match d !! "metadata" with
      | Some (JDict m) => m !! key
      | _ => None
      end
  | _ => None
  end.

(** [feature['properties'][key]], where there is one. *)
Definition feature_property (key : string) (feature : json) : option json :=
  match feature with
  | JDict fd =>
      match fd !! "properties" with
      | Some (JDict props) => props !! key
      | _ => None
      end
  | _ => None
  end.

Definition plot_number (feature : json) : option json :=
  feature_property "plotno" feature.

(** The features of the JSON document stored at a path. *)
Definition file_features (f : gmap string node) (path : string) : list json :=
  match f !! path with
  | Some (File (TextJson content)) => output_features content
  | _ => []
  end.

Definition file_counter (key : string) (f : gmap string node) (path : string)
    : option json :=
  match f !! path with
  | Some (File (TextJson content)) => metadata_counter key content
  | _ => None
  end.

Definition plot_numbers (features : list json) : list json :=
  omap plot_number features.

(** The locals after the existing file was looked at, unless that raised. *)
Definition loaded (r : read_result) : option locals :=
  match r with
  | ReadAbsent | ReadFresh => Some fresh
  | ReadLoaded l => Some l
  | ReadRaised _ => None
  end.

(** One round of the loop of line 149, case by case. *)
Inductive round (self : BhuNakshaExtractor) (svc : service)
    (gis_code : option string) (d t v out : string) (info : json)
    (total i : nat) (p : json) (st : loop_state)
    : option exn → loop_state → Prop :=
| round_unhashable :
    hash_key p = None →
    round self svc gis_code d t v out info total i p st (Some TypeError) st
| round_skip k :
    hash_key p = Some k → k ∈ ls_existing st →
    round self svc gis_code d t v out info total i p st None st
| round_raise k e :
    hash_key p = Some k → k ∉ ls_existing st →
    plot_feature svc d t v (get_plot_geometry svc i (code_str gis_code) p) = inl e →
    round self svc gis_code d t v out info total i p st (Some e)
      (with_trace st
         (ls_trace st ++ [Print (Processing p (i + 1) total);
                          GetPlotGeometry i (code_str gis_code) p]))
| round_no_feature k :
    hash_key p = Some k → k ∉ ls_existing st →
    plot_feature svc d t v (get_plot_geometry svc i (code_str gis_code) p)
      = inr None →
    round self svc gis_code d t v out info total i p st None
      (with_trace st
         (ls_trace st ++ [Print (Processing p (i + 1) total);
                          GetPlotGeometry i (code_str gis_code) p; Sleep]))
| round_no_list k feature :
    hash_key p = Some k → k ∉ ls_existing st →
    plot_feature svc d t v (get_plot_geometry svc i (code_str gis_code) p)
      = inr (Some feature) →
    (∀ xs, ls_features st ≠ JList xs) →
    round self svc gis_code d t v out info total i p st (Some AttributeError)
      (with_trace st
         (ls_trace st ++ [Print (Processing p (i + 1) total);
                          GetPlotGeometry i (code_str gis_code) p]))
| round_persist k feature xs ok f' :
    hash_key p = Some k → k ∉ ls_existing st →
    plot_feature svc d t v (get_plot_geometry svc i (code_str gis_code) p)
      = inr (Some feature) →
    ls_features st = JList xs →
    write_file (output_path t v out)
      (make_output self gis_code d t v info total i (xs ++ [feature]))
      (write_result_at svc i) (ls_fs st) = (ok, f') →
    round self svc gis_code d t v out info total i p st None
      {| ls_features := JList (xs ++ [feature]);
         ls_existing := if ok then {[k]} ∪ ls_existing st else ls_existing st;
         ls_fs := f';
         ls_trace :=
           ls_trace st
           ++ [Print (Processing p (i + 1) total);
               GetPlotGeometry i (code_str gis_code) p;
               WriteFile (output_path t v out)
                 (make_output self gis_code d t v info total i (xs ++ [feature]))
                 ok]
           ++ (if ok then [] else [Print SaveError])
           ++ [Sleep] |}.

(** ** A village to run the extractor on *)

Definition ex_self : BhuNakshaExtractor :=
  {| state := "27"; category := Some "U" |}.

Definition ex_gis : option string := Some "UV25030417".

Definition ex_point : json :=
  JDict (<["type" := JStr "Point"]>
         (<["coordinates" := JList [JInt 73; JInt 18]]> ∅)).

(** The answer of the service for a plot: its number and a geometry. *)
Definition ex_detail (p : json) : json :=
  JDict (<["plotno" := p]> (<["the_geom" := JStr "POINT (1 2)"]> ∅)).

(** An answer that also has a key named like a context key. *)
Definition ex_detail_district (p : json) : json :=
  JDict (<["plotno" := p]>
         (<["district" := JStr "Raw"]>
          (<["the_geom" := JStr "POINT (1 2)"]> ∅))).

(** The service answers for plot [p0] only; the call for any other plot
    fails. *)
Definition ex_only (p0 : string) (p : json) : json :=
  match p with
  | JStr s => if String.eqb s p0 then ex_detail p else JNull
  | _ => JNull
  end.

Definition ex_remote (plots : list json) (answer : json → json)
    (wr : nat → write_result) : service :=
  {| get_village_info := fun _ => JDict (<["xmin" := JInt 0]> ∅);
     get_plot_list := fun _ => plots;
     get_plot_geometry := fun _ _ p => answer p;
     wkt_to_geojson := fun _ => ex_point;
     write_result_at := wr;
     read_refused := false |}.

Definition ex_run (svc : service) (gis_code : option string)
    (f : gmap string node) : outcome :=
  extract_and_save_village_data ex_self svc gis_code
    "Pune" "Haveli" "Wadgaon" "data_Pune" f.

Definition ex_path : string := "data_Pune/Haveli/Wadgaon.geojson".

Definition ex_both : list json := [JStr "101"; JStr "102"].

Definition always_ok (i : nat) : write_result := WriteOk.

(** An empty disk, and the directories a run leaves on it. *)
Definition ex_empty : gmap string node := ∅.

Definition ex_dirs : gmap string node :=
  <["data_Pune/Haveli" := Dir]> (<["data_Pune" := Dir]> ∅).

(** The file system after a first run in which only one plot of the two
    could be fetched, and after a run in which both were. *)
Definition ex_fs_after (p0 : string) : gmap string node :=
  out_fs (ex_run (ex_remote ex_both (ex_only p0) always_ok) ex_gis ex_empty).

Definition ex_fs_done : gmap string node :=
  out_fs (ex_run (ex_remote ex_both ex_detail always_ok) ex_gis ex_empty).

(** The contents of the successful writes of a trace. *)
Definition written (trace : list event) : list json :=
  omap (fun e => match e with
                 | WriteFile _ c true => Some c
                 | _ => None
                 end) trace.

(** Whether each write of a trace succeeded, in order. *)
Definition write_flags (trace : list event) : list bool :=
  omap (fun e => match e with
                 | WriteFile _ _ ok => Some ok
                 | _ => None
                 end) trace.

Definition never_ok (i : nat) : write_result := WriteFailOpen.

(** The first write fails, the later ones succeed. *)
Definition first_fails (i : nat) : write_result :=
  match i with
  | 0 => WriteFailOpen
  | S _ => WriteOk
  end.

(** The run that resumes after plot 101 was stored. *)
Definition ex_resume : outcome :=
  ex_run (ex_remote ex_both ex_detail always_ok) ex_gis (ex_fs_after "101").

Definition ex_resume_content : json :=
  default JNull (head (written (out_trace ex_resume))).

(** The run that retries plot 101 after only plot 102 was stored. *)
Definition ex_retry : outcome :=
  ex_run (ex_remote ex_both ex_detail always_ok) ex_gis (ex_fs_after "102").

(** The file holds plot 9 and the service now lists plot 1. *)
Definition ex_fs_nine : gmap string node :=
  out_fs (ex_run (ex_remote [JStr "9"] ex_detail always_ok) ex_gis ex_empty).

Definition ex_changed : outcome :=
  ex_run (ex_remote [JStr "1"] ex_detail always_ok) ex_gis ex_fs_nine.

(** No write succeeds. *)
Definition ex_unsaved : outcome :=
  ex_run (ex_remote [JStr "1"] ex_detail never_ok) ex_gis ex_empty.

(** The write of plot 1 fails and the write of plot 2 succeeds; then the
    next run on what was left. *)
Definition ex_first_fails : outcome :=
  ex_run (ex_remote [JStr "1"; JStr "2"] ex_detail first_fails) ex_gis ex_empty.

Definition ex_next_run : outcome :=
  ex_run (ex_remote [JStr "1"; JStr "2"] ex_detail always_ok) ex_gis
    (out_fs ex_first_fails).

(** The output file holds the JSON text [[]]. *)
Definition ex_fs_array : gmap string node :=
  <[ex_path := File (TextJson (JList []))]> ex_dirs.

(** The service answers every call for plot detail with the array [[1]]. *)
Definition ex_array_answer (p : json) : json := JList [JInt 1].

(** The output file holds a text that is no JSON. *)
Definition ex_fs_not_json : gmap string node :=
  <[ex_path := File TextNotJson]> ex_dirs.

(** The state in which the loop starts on that disk with nothing loaded. *)
Definition ex_start : loop_state :=
  {| ls_features := JList [];
     ls_existing := ∅;
     ls_fs := ex_dirs;
     ls_trace := [] |}.

Definition ex_raw_district : gmap string json :=
  <["plotno" := JStr "7"]>
    (<["district" := JStr "Raw"]> (<["the_geom" := JStr "POINT (1 2)"]> ∅)).

(** The locals of a run that starts on a given file system. *)
Definition ex_locals (f : gmap string node) : locals :=
  default fresh (loaded (read_existing false f ex_path)).

(** ** Invariants of the plot loop *)

Definition no_write (trace : list event) : Prop :=
  Forall (fun e => is_write e = false) trace.

Definition is_fetch (e : event) : bool :=
  match e with
  | GetPlotGeometry _ _ _ => true
  | _ => false
  end.

(** Events that are neither a call for plot detail nor a write. *)
Definition quiet (trace : list event) : Prop :=
  Forall (fun e => is_write e = false ∧ is_fetch e = false) trace.

Section Invariants.
Variable self : BhuNakshaExtractor.
Variable svc : service.
Variable gis_code : option string.
Variables d t v out : string.
Variable info : json.
Variable total : nat.

(** Every write of a trace follows the call it belongs to and holds the
    features [xs0] followed by all features yielded so far. *)
Definition writes_ok (xs0 : list json) (trace : list event) : Prop :=
  ∀ a pth c ok b,
    trace = a ++ WriteFile pth c ok :: b →
    pth = output_path t v out ∧
    ∃ a' j q, a = a' ++ [GetPlotGeometry j (code_str gis_code) q] ∧
              c = make_output self gis_code d t v info total j
                    (xs0 ++ yielded svc d t v a).

(** The state of the loop for a feature list that started as [xs0]. *)
Definition features_inv (xs0 : list json) (st : loop_state) : Prop :=
  ls_features st = JList (xs0 ++ yielded svc d t v (ls_trace st)) ∧
  writes_ok xs0 (ls_trace st).

(** When the list of features is no list (the file held something else
    under ["features"]), nothing is ever written. *)
Definition no_list_inv (st : loop_state) : Prop :=
  (∀ xs, ls_features st ≠ JList xs) ∧ no_write (ls_trace st).

(** The file holds what the last write put there, when that succeeded. *)
Definition disk_inv (st : loop_state) : Prop :=
  ∀ a pth c b,
    ls_trace st = a ++ WriteFile pth c true :: b → no_write b →
    ls_fs st !! output_path t v out = Some (File (TextJson c)).

End Invariants.

(** ** More to observe of a run *)

(** The number of pauses of lines 196-197. *)
Definition sleeps (trace : list event) : nat :=
  List.length (omap (fun e => match e with
                              | Sleep => Some tt
                              | _ => None
                              end) trace).

(** The identifiers for which the village info was requested. *)
Definition info_requests (trace : list event) : list string :=
  omap (fun e => match e with
                 | GetVillageInfo g => Some g
                 | _ => None
                 end) trace.

Definition is_print (e : event) : bool :=
  match e with
  | Print _ => true
  | _ => false
  end.

(** The service never answers with a plot detail. *)
Definition ex_no_answer (p : json) : json := JNull.

(** The events of a round of the plot loop. *)
Definition is_round_event (e : event) : bool :=
  match e with
  | Print _ | GetPlotGeometry _ _ _ | WriteFile _ _ _ | Sleep => true
  | _ => false
  end.

(** The plot numbers of a list that are not in a set, in the order of the
    list. *)
Definition missing (s : gset hkey) (plot_list : list json) : list json :=
  List.filter (fun q => match hash_key q with
                        | Some k => bool_decide (k ∉ s)
                        | None => false
                        end) plot_list.

(** The output file agrees with the loop: it is no directory, and looking
    at it gives the features and the set that the loop holds. *)
Definition in_sync (t v out : string) (st : loop_state) : Prop :=
  ls_fs st !! output_path t v out ≠ Some Dir ∧
  ∃ l, loaded (read_existing false (ls_fs st) (output_path t v out)) = Some l ∧
       all_features l = ls_features st ∧
       existing_plot_nos l = ls_existing st.

(** ** scrape_districts (lines 202-243)

    The drop-down lists of the service are taken as the code reads them:
    [get_hierarchy_data] (lines 40-50) answers [None] when the call failed,
    else an array of arrays of entries, each with a string under ['value']
    (the name shown) and a string under ['code'].  The answer is a function
    of the level and the codes asked for. *)

Record item := {
  value : string;
  code : string;
}.

Record hierarchy := {
  get_hierarchy_data : nat → string → option (list (list item));
}.

(** A Python [dict] from names to codes, in insertion order: setting a key
    that is there keeps its place and replaces its value. *)
Fixpoint dict_set (k c : string) (dict : list (string * string))
    : list (string * string) :=
  match dict with
  | [] => [(k, c)]
  | (k', c') :: rest =>
      if String.eqb k k' then (k', c) :: rest else (k', c') :: dict_set k c rest
  end.

(** [{item['value']: item['code'] for item in items}]. *)
Definition dict_of_items (items : list item) : list (string * string) :=
  fold_left (fun dict it => dict_set (value it) (code it) dict) items [].

(** [dict.get(k)]. *)
Fixpoint dict_get (k : string) (dict : list (string * string)) : option string :=
  match dict with
  | [] => None
  | (k', c') :: rest => if String.eqb k k' then Some c' else dict_get k rest
  end.

(** The first list of an answer, unless [not response or not response[0]]. *)
Definition first_list (response : option (list (list item)))
    : option (list item) :=
  match response with
  | Some ((it :: its) :: _) => Some (it :: its)
  | _ => None
  end.

(** Line 218. *)
Definition district_dir_of (district_name : string) : string :=
  "data_" +:+ replace_char " " "_" district_name.

Inductive walk_message :=
| Starting (targets : list string)
| NoDistrictList
| DistrictNotFound (district : string)
| ProcessingDistrict (district district_code : string)
| DiscoveringTaluks
| NoTaluks (district : string)
| FoundTaluks (n : nat)
| ProcessingTaluk (taluk taluk_code : string)
| NoVillages (taluk : string).

(** What the walk does: it prints, asks for a list, makes a district
    directory, or calls [extract_and_save_village_data], whose own trace
    the event holds. *)
Inductive walk_event :=
| Say (m : walk_message)
| GetHierarchyData (level : nat) (codes : string)
| MakeDistrictDir (p : string)
| Village (gis_code : option string)
    (district_name taluk_name village_name output_dir : string)
    (trace : list event).

(** The [IndexError] of line 238, or what a call raised. *)
Inductive walk_exn :=
| IndexError
| Raised (e : exn).

Record walk := {
  wk_fs : gmap string node;
  wk_trace : list walk_event;
  wk_raised : option walk_exn;
}.

Definition say (w : walk) (es : list walk_event) : walk :=
  {| wk_fs := wk_fs w; wk_trace := wk_trace w ++ es; wk_raised := wk_raised w |}.

Definition raise (w : walk) (e : walk_exn) : walk :=
  {| wk_fs := wk_fs w; wk_trace := wk_trace w; wk_raised := Some e |}.

Section Walker.
Variable self : BhuNakshaExtractor.
Variable hier : hierarchy.
Variable svc : service.

(** Lines 241-243; an exception of the call ends the walk. *)
Fixpoint visit_villages (map_type_code : option string)
    (district_code taluk_code district_name taluk_name district_dir : string)
    (all_villages : list (string * string)) (w : walk) : walk :=
  match all_villages with
  | [] => w
  | (village_name, village_code) :: rest =>
      let gis_code :=
        get_village_gis_code self map_type_code (Some district_code)
          (Some taluk_code) (Some village_code) in
      let r :=
        extract_and_save_village_data self svc gis_code district_name
          taluk_name village_name district_dir (wk_fs w) in
      let w1 :=
        {| wk_fs := out_fs r;
           wk_trace := wk_trace w
                       ++ [Village gis_code district_name taluk_name
                             village_name district_dir (out_trace r)];
           wk_raised := Raised <$> out_raised r |} in
      match out_raised r with
      | Some _ => w1
      | None =>
          visit_villages map_type_code district_code taluk_code district_name
            taluk_name district_dir rest w1
      end
  end.

(** Lines 230-243 for one taluk.  [village_response[1]] raises when the
    answer has one list only. *)
Definition visit_taluk (district_code district_name district_dir : string)
    (taluk : string * string) (w : walk) : walk :=
  let '(taluk_name, taluk_code) := taluk in
  let codes :=
    code_str (category self) +:+ "," +:+ district_code +:+ ","
    +:+ taluk_code +:+ "," in
  let village_response := get_hierarchy_data hier 3 codes in
  let w1 := say w [Say (ProcessingTaluk taluk_name taluk_code);
                   GetHierarchyData 3 codes] in
  match first_list village_response with
  | None => say w1 [Say (NoVillages taluk_name)]
  | Some villages =>
      match village_response with
      | Some (_ :: map_types :: _) =>
          let map_type_code :=
            match map_types with
            | [] => None
            | it :: _ => Some (code it)
            end in
          visit_villages map_type_code district_code taluk_code district_name
            taluk_name district_dir (dict_of_items villages) w1
      | _ => raise w1 IndexError
      end
  end.

(** The loop of line 229. *)
Fixpoint visit_taluks (district_code district_name district_dir : string)
    (taluks_to_process : list (string * string)) (w : walk) : walk :=
  match taluks_to_process with
  | [] => w
  | taluk :: rest =>
      let w1 := visit_taluk district_code district_name district_dir taluk w in
      match wk_raised w1 with
      | Some _ => w1
      | None => visit_taluks district_code district_name district_dir rest w1
      end
  end.

(** Lines 212-243 for one district. *)
Definition visit_district (all_districts : list (string * string))
    (district_name : string) (w : walk) : walk :=
  match dict_get district_name all_districts with
  | Some district_code =>
      if String.eqb district_code "" then
        say w [Say (DistrictNotFound district_name)]
      else
        let district_dir := district_dir_of district_name in
        let w1 := say w [Say (ProcessingDistrict district_name district_code);
                         MakeDistrictDir district_dir] in
        match makedirs district_dir (wk_fs w) with
        | inl e => raise w1 (Raised e)
        | inr f1 =>
            let codes :=
              code_str (category self) +:+ "," +:+ district_code +:+ "," in
            let w2 :=
              {| wk_fs := f1;
                 wk_trace := wk_trace w1
                             ++ [Say DiscoveringTaluks; GetHierarchyData 2 codes];
                 wk_raised := wk_raised w1 |} in
            match first_list (get_hierarchy_data hier 2 codes) with
            | None => say w2 [Say (NoTaluks district_name)]
            | Some taluks =>
                let taluks_to_process := dict_of_items taluks in
                visit_taluks district_code district_name district_dir
                  taluks_to_process
                  (say w2 [Say (FoundTaluks (List.length taluks_to_process))])
            end
        end
  | None => say w [Say (DistrictNotFound district_name)]
  end.

(** The loop of line 211. *)
Fixpoint visit_districts (all_districts : list (string * string))
    (target_districts : list string) (w : walk) : walk :=
  match target_districts with
  | [] => w
  | district_name :: rest =>
      let w1 := visit_district all_districts district_name w in
      match wk_raised w1 with
      | Some _ => w1
      | None => visit_districts all_districts rest w1
      end
  end.

Definition scrape_districts (target_districts : list string)
    (f : gmap string node) : walk :=
  let codes := code_str (category self) +:+ "," in
  let w :=
    {| wk_fs := f;
       wk_trace := [Say (Starting target_districts); GetHierarchyData 1 codes];
       wk_raised := None |} in
  match first_list (get_hierarchy_data hier 1 codes) with
  | None => say w [Say NoDistrictList]
  | Some districts => visit_districts (dict_of_items districts) target_districts w
  end.

End Walker.

(** ** What is observed of a walk *)

(** The calls of line 243, in order. *)
Definition calls (trace : list walk_event)
    : list (option string * string * string * string * string) :=
  omap (fun e => match e with
                 | Village g d t v out _ => Some (g, d, t, v, out)
                 | _ => None
                 end) trace.

(** The events of all the calls of line 243, in order. *)
Definition village_events (trace : list walk_event) : list event :=
  mjoin (omap (fun e => match e with
                        | Village _ _ _ _ _ tr => Some tr
                        | _ => None
                        end) trace).

(** A request to the service in a village run. *)
Definition is_request (e : event) : bool :=
  match e with
  | GetVillageInfo _ | GetPlotList _ | GetPlotGeometry _ _ _ => true
  | _ => false
  end.

(** Nothing is removed and nothing changes its kind: a directory stays a
    directory and a file stays a file. *)
Definition keeps (f f' : gmap string node) : Prop :=
  (∀ q, f !! q = Some Dir → f' !! q = Some Dir) ∧
  (∀ q c, f !! q = Some (File c) → ∃ c', f' !! q = Some (File c')).

(** The events of a walk other than the calls of line 243. *)
Definition is_call (e : walk_event) : bool :=
  match e with
  | Village _ _ _ _ _ _ => true
  | _ => false
  end.

(** A walk that comes after the events [trace]. *)
Definition after (trace : list walk_event) (w : walk) : walk :=
  {| wk_fs := wk_fs w; wk_trace := trace ++ wk_trace w;
     wk_raised := wk_raised w |}.

(** The code of the last entry of a list with a given name. *)
Definition last_code (name : string) (items : list item) : option string :=
  code <$> list.last (List.filter (fun it => String.eqb (value it) name) items).

(** The call of line 243 for a village of a taluk. *)
Definition village_call (self : BhuNakshaExtractor)
    (map_type_code : option string)
    (district_code taluk_code district_name taluk_name district_dir : string)
    (village : string * string)
    : option string * string * string * string * string :=
  (get_village_gis_code self map_type_code (Some district_code)
     (Some taluk_code) (Some village.2),
   district_name, taluk_name, village.1, district_dir).

(** A service that lists one district, one taluk, and two entries with the
    same village name. *)
Definition ex_hier : hierarchy :=
  {| get_hierarchy_data := fun level _ =>
       match level with
       | 1 => Some [[{| value := "Pune"; code := "25" |}]]
       | 2 => Some [[{| value := "Haveli"; code := "03" |}]]
       | 3 => Some [[{| value := "Wadgaon"; code := "0417" |};
                     {| value := "Wadgaon"; code := "0418" |}];
                    [{| value := "Village"; code := "V" |}]]
       | _ => None
       end |}.

Definition ex_walk : walk :=
  scrape_districts ex_self ex_hier (ex_remote ex_both ex_detail always_ok)
    ["Pune"] ex_empty.

(** The state of a walk before anything happened on the empty disk. *)
Definition ex_walk_start : walk :=
  {| wk_fs := ex_empty; wk_trace := []; wk_raised := None |}.

(** * Properties *)

(** ** The identifier builder *)

Lemma code_truthy_false (c : option string) :
  code_truthy c = false ↔ c = None ∨ c = Some "".
Proof.
  destruct c as [s|]; simpl.
  - rewrite negb_false_iff, String.eqb_eq. split.
    + intros ->. by right.
    + intros [?|[= ->]]; done.
  - split; [by left | done].
Qed.

(** C7 (identifier totality): [get_village_gis_code] returns [None] exactly
    when one of the five codes (category, map type, district, taluk,
    village) is [None] or the empty string, and for five non-empty codes it
    returns their concatenation in that order. *)
Theorem gis_code_totality (self : BhuNakshaExtractor)
    (mt d t v : option string) :
  (get_village_gis_code self mt d t v = None ↔
     ∃ c, c ∈ [category self; mt; d; t; v] ∧ (c = None ∨ c = Some "")) ∧
  (∀ sc sm sd st sv,
     category self = Some sc → mt = Some sm → d = Some sd →
     t = Some st → v = Some sv →
     sc ≠ "" → sm ≠ "" → sd ≠ "" → st ≠ "" → sv ≠ "" →
     get_village_gis_code self mt d t v
       = Some (sc +:+ sm +:+ sd +:+ st +:+ sv)).
Proof.
  unfold get_village_gis_code. split.
  - destruct (forallb code_truthy _) eqn:Hall; simpl.
    + split; [done|]. intros (c & Hin & Hc).
      rewrite forallb_forall in Hall.
      apply code_truthy_false in Hc.
      rewrite Hall in Hc; [done|]. by apply list_elem_of_In.
    + split; [|done]. intros _.
      simpl in Hall. rewrite !andb_false_iff in Hall.
      destruct Hall as [H|[H|[H|[H|[H|H]]]]]; [..|done];
        apply code_truthy_false in H;
        eexists; (split; [|exact H]); repeat constructor.
  - intros sc sm sd st sv -> -> -> -> -> Hc Hm Hd Ht Hv. simpl.
    apply String.eqb_neq in Hc, Hm, Hd, Ht, Hv.
    by rewrite Hc, Hm, Hd, Ht, Hv.
Qed.

Lemma gis_code_totality_witness :
  get_village_gis_code {| state := "27"; category := Some "U" |}
    (Some "V") (Some "25") (Some "03") (Some "0417")
  = Some "UV25030417".
Proof.
  exact (proj2 (gis_code_totality {| state := "27"; category := Some "U" |}
                  (Some "V") (Some "25") (Some "03") (Some "0417"))
           "U" "V" "25" "03" "0417" eq_refl eq_refl eq_refl eq_refl eq_refl
           ltac:(discriminate) ltac:(discriminate) ltac:(discriminate)
           ltac:(discriminate) ltac:(discriminate)).
Defined.

(** ** The output path *)

Lemma has_char_replace_same (old new : ascii) (s : string) :
  old ≠ new → has_char old (replace_char old new s) = false.
Proof.
  intros Hne. induction s as [|c r IH]; simpl; [done|].
  rewrite IH, orb_false_r.
  destruct (Ascii.eqb c old) eqn:Hc; [|done].
  apply Ascii.eqb_neq. congruence.
Qed.

Lemma has_char_replace_other (a old new : ascii) (s : string) :
  a ≠ new → has_char a s = false →
  has_char a (replace_char old new s) = false.
Proof.
  intros Hne. induction s as [|c r IH]; simpl; [done|].
  intros [Hc Hr]%orb_false_iff. rewrite IH, orb_false_r by done.
  destruct (Ascii.eqb c old); [|done].
  apply Ascii.eqb_neq. congruence.
Qed.

Lemma replace_char_absent (old new : ascii) (s : string) :
  has_char old s = false → replace_char old new s = s.
Proof.
  induction s as [|c r IH]; simpl; [done|].
  intros [Hc Hr]%orb_false_iff. by rewrite Hc, IH.
Qed.

Lemma sanitize_clean (s : string) :
  has_char " " (sanitize s) = false ∧ has_char "/" (sanitize s) = false.
Proof.
  unfold sanitize. split.
  - apply has_char_replace_other; [done|]. by apply has_char_replace_same.
  - by apply has_char_replace_same.
Qed.

Lemma starts_with_sep_has (s : string) :
  starts_with_sep s = true → has_char "/" s = true.
Proof. destruct s as [|c r]; simpl; [done|]. by intros ->. Qed.

Lemma ends_with_sep_has (s : string) :
  ends_with_sep s = true → has_char "/" s = true.
Proof.
  induction s as [|c r IH]; simpl; [done|].
  destruct r as [|c' r'].
  - by intros ->.
  - intros H. rewrite IH by done. apply orb_true_r.
Qed.

Lemma ends_with_sep_app (a b : string) :
  b ≠ "" → ends_with_sep (a +:+ b) = ends_with_sep b.
Proof.
  intros Hb. induction a as [|c r IH]; [done|].
  change (String c r +:+ b) with (String c (r +:+ b)).
  simpl. rewrite <-IH.
  destruct (r +:+ b) eqn:Hrb; [|done].
  destruct r; simpl in Hrb; [done|discriminate].
Qed.

Lemma append_assoc (a b c : string) : (a +:+ b) +:+ c = a +:+ b +:+ c.
Proof.
  induction a as [|x r IH]; [done|].
  change (String x ((r +:+ b) +:+ c) = String x (r +:+ b +:+ c)).
  by rewrite IH.
Qed.

Lemma app_eq_empty (a b : string) : a +:+ b = "" → a = "" ∧ b = "".
Proof. destruct a as [|x r]; [done|]. intros H. vm_compute in H. discriminate. Qed.

Lemma replace_char_empty (old new : ascii) (s : string) :
  replace_char old new s = "" → s = "".
Proof. by destruct s. Qed.

(** C9, as the code has it: for a taluk name without ['/'] the file is
    [os.path.join(outputRoot, T, V + ".geojson")], which for a non-empty root
    without a trailing ['/'] and a non-empty taluk name is the string
    [<outputRoot>/<T>/<V>.geojson]; T and V are the names with every space
    and every ['/'] replaced by ['_'], so neither character is left in
    them.  Other white space is kept. *)
Theorem output_path_scheme (output_dir taluk_name village_name : string) :
  has_char "/" taluk_name = false →
  output_path taluk_name village_name output_dir
    = path_join (path_join output_dir (sanitize taluk_name))
        (sanitize village_name +:+ ".geojson") ∧
  (output_dir ≠ "" → ends_with_sep output_dir = false → taluk_name ≠ "" →
   output_path taluk_name village_name output_dir
     = output_dir +:+ "/" +:+ sanitize taluk_name +:+ "/"
         +:+ sanitize village_name +:+ ".geojson") ∧
  has_char " " (sanitize taluk_name) = false ∧
  has_char "/" (sanitize taluk_name) = false ∧
  has_char " " (sanitize village_name) = false ∧
  has_char "/" (sanitize village_name) = false.
Proof.
  intros Ht.
  assert (Hst : replace_char " " "_" taluk_name = sanitize taluk_name).
  { unfold sanitize. symmetry. apply replace_char_absent.
    by apply has_char_replace_other. }
  destruct (sanitize_clean taluk_name) as [Ht1 Ht2].
  destruct (sanitize_clean village_name) as [Hv1 Hv2].
  unfold output_path, output_path_of, taluk_dir_of. rewrite Hst.
  repeat split; try done.
  intros Hout Hend Hne.
  assert (Hne' : sanitize taluk_name ≠ "").
  { intros He. apply Hne. unfold sanitize in He.
    by do 2 apply replace_char_empty in He. }
  assert (Hs1 : starts_with_sep (sanitize taluk_name) = false).
  { destruct (starts_with_sep _) eqn:E; [|done].
    apply starts_with_sep_has in E. congruence. }
  assert (Hs2 : starts_with_sep (sanitize village_name +:+ ".geojson") = false).
  { destruct (sanitize village_name) as [|c r] eqn:E; [done|]. simpl.
    simpl in Hv2. by apply orb_false_iff in Hv2 as [-> _]. }
  unfold path_join at 2. rewrite Hs1, Hend.
  apply String.eqb_neq in Hout. rewrite Hout. simpl.
  unfold path_join. rewrite Hs2.
  assert (He : ends_with_sep (output_dir +:+ "/" +:+ sanitize taluk_name) = false).
  { rewrite ends_with_sep_app.
    - change ("/" +:+ sanitize taluk_name) with (String "/" (sanitize taluk_name)).
      destruct (sanitize taluk_name) as [|c r] eqn:E; [done|].
      destruct (ends_with_sep (String "/" (String c r))) eqn:E2; [|done].
      simpl in E2. change (ends_with_sep (String c r) = true) in E2.
      apply ends_with_sep_has in E2. congruence.
    - done. }
  rewrite He, orb_false_r.
  destruct (String.eqb (output_dir +:+ _) "") eqn:E.
  - apply String.eqb_eq in E. apply app_eq_empty in E as [-> _].
    by apply String.eqb_neq in Hout.
  - by rewrite !append_assoc.
Qed.

Lemma output_path_scheme_witness :
  output_path "Haveli East" "Wadgaon/Sheri 2" "data_Pune"
    = "data_Pune/Haveli_East/Wadgaon_Sheri_2.geojson".
Proof.
  exact (proj1 (proj2 (output_path_scheme "data_Pune" "Haveli East"
                         "Wadgaon/Sheri 2" eq_refl))
           ltac:(discriminate) eq_refl ltac:(discriminate)).
Defined.

(** The white space of C9 is the space character alone: a tab in the
    village name stays in the file name, so the file is not
    [out/<T>/<V>.geojson] for any T and V free of white space and ['/']. *)
Lemma tab_kept_in_file_name :
  ¬ ∃ T V : string,
      clean_name T = true ∧ clean_name V = true ∧
      output_path "T" (String "a" (String tab "b")) "out"
        = "out" +:+ "/" +:+ T +:+ "/" +:+ V +:+ ".geojson".
Proof.
  intros (T & V & HT & HV & H).
  vm_compute in H. injection H as H.
  destruct T as [|c T]; vm_compute in H; [discriminate|].
  injection H as <- H.
  destruct T as [|c T]; vm_compute in H.
  - injection H as H.
    destruct V as [|c1 V]; vm_compute in H; [discriminate|].
    injection H as <- H.
    destruct V as [|c2 V]; vm_compute in H; [discriminate|].
    injection H as <- H.
    unfold clean_name in HV.
    apply andb_true_iff in HV as [HV _]. apply andb_true_iff in HV as [_ HV].
    vm_compute in HV. discriminate.
  - injection H as <- H. unfold clean_name in HT.
    apply andb_true_iff in HT as [_ HT]. vm_compute in HT. discriminate.
Qed.

(** The taluk name keeps its ['/'] (line 106 replaces the space only, line
    108 replaces both in the village name): the file lands one directory
    deeper. *)
Lemma taluk_separator_kept :
  output_path "a/b" "v" "out" = "out/a/b/v.geojson".
Proof. reflexivity. Qed.

(** ** The properties of a feature *)

Lemma truthy_dict_lookup (d : gmap string json) (k : string) (x : json) :
  d !! k = Some x → truthy (JDict d) = true.
Proof.
  intros H. simpl. apply negb_true_iff, Nat.eqb_neq.
  intros Hs. apply map_size_empty_iff in Hs. subst. by rewrite lookup_empty in H.
Qed.

Lemma plot_feature_some (svc : service) (d t v : string) (raw : gmap string json) :
  truthy (default JNull (raw !! "the_geom")) = true →
  truthy (wkt_to_geojson svc (default JNull (raw !! "the_geom"))) = true →
  plot_feature svc d t v (JDict raw)
    = inr (Some (make_feature d t v
                   (wkt_to_geojson svc (default JNull (raw !! "the_geom"))) raw)).
Proof.
  intros Hg Hw. unfold plot_feature.
  destruct (raw !! "the_geom") as [g|] eqn:Hl; [|done].
  rewrite (truthy_dict_lookup _ _ _ Hl). simpl in *. by rewrite Hg, Hw.
Qed.

Lemma feature_property_make (d t v key : string) (geometry : json)
    (raw : gmap string json) :
  feature_property key (make_feature d t v geometry raw)
    = match raw !! key with
      | Some x => Some x
      | None => context_properties d t v !! key
      end.
Proof.
  unfold feature_property, make_feature, make_properties.
  rewrite lookup_insert_ne, lookup_insert_ne, lookup_insert_eq by done.
  rewrite lookup_union. by destruct (raw !! key), (context_properties d t v !! key).
Qed.

(** C6, as the code has it: the properties of the appended feature are the
    three context keys updated with the raw answer of the service, and the
    raw answer wins every collision, the keys district, taluk and village
    included. *)
Theorem properties_merge (self : BhuNakshaExtractor) (svc : service)
    (gis_code : option string) (d t v out : string) (info : json)
    (total i : nat) (p : json) (st : loop_state) (k : hkey)
    (raw : gmap string json) (xs : list json) :
  hash_key p = Some k →
  k ∉ ls_existing st →
  get_plot_geometry svc i (code_str gis_code) p = JDict raw →
  truthy (default JNull (raw !! "the_geom")) = true →
  truthy (wkt_to_geojson svc (default JNull (raw !! "the_geom"))) = true →
  ls_features st = JList xs →
  ∃ feature,
    ls_features (plot_step self svc gis_code d t v out info total i p st).2
      = JList (xs ++ [feature]) ∧
    ∀ key, feature_property key feature
           = match raw !! key with
             | Some x => Some x
             | None => context_properties d t v !! key
             end.
Proof.
  intros Hk Hnot Hraw Hg Hw Hxs.
  eexists. split.
  - unfold plot_step. rewrite Hk. rewrite decide_False by done. simpl.
    rewrite Hraw, (plot_feature_some svc d t v raw Hg Hw), Hxs.
    unfold persist. by destruct (write_file _ _ _ _).
  - intros key. apply feature_property_make.
Qed.

Lemma properties_merge_witness :
  ∃ feature,
    ls_features
      (plot_step ex_self (ex_remote [JStr "7"] ex_detail_district always_ok)
         ex_gis "Pune" "Haveli" "Wadgaon" "data_Pune" JNull 1 0 (JStr "7")
         ex_start).2 = JList ([] ++ [feature]) ∧
    ∀ key, feature_property key feature
           = match ex_raw_district !! key with
             | Some x => Some x
             | None => context_properties "Pune" "Haveli" "Wadgaon" !! key
             end.
Proof.
  exact (properties_merge ex_self
           (ex_remote [JStr "7"] ex_detail_district always_ok) ex_gis
           "Pune" "Haveli" "Wadgaon" "data_Pune" JNull 1 0 (JStr "7") ex_start
           (HStr "7") ex_raw_district [] eq_refl
           (not_elem_of_empty (HStr "7")) eq_refl eq_refl eq_refl eq_refl).
Defined.

(** The context keys of C6 are not protected: an answer of the service
    with a key ["district"] replaces the district name (here "Pune") in the
    feature that is stored. *)
Lemma raw_district_overrides :
  feature_property "district"
    <$> file_features
          (out_fs (ex_run (ex_remote [JStr "7"] ex_detail_district always_ok)
                     ex_gis ex_empty)) ex_path
  = [Some (JStr "Raw")].
Proof. vm_compute. reflexivity. Qed.

(** ** The rounds of the plot loop *)

Lemma plot_step_round (self : BhuNakshaExtractor) (svc : service)
    (gis_code : option string) (d t v out : string) (info : json)
    (total i : nat) (p : json) (st : loop_state) :
  round self svc gis_code d t v out info total i p st
    (plot_step self svc gis_code d t v out info total i p st).1
    (plot_step self svc gis_code d t v out info total i p st).2.
Proof.
  unfold plot_step.
  destruct (hash_key p) as [k|] eqn:Hk; [|by constructor].
  destruct (decide (k ∈ ls_existing st)) as [Hin|Hin]; [by econstructor|].
  destruct (plot_feature _ _ _ _ _) as [e|[feature|]] eqn:Hf.
  - by eapply round_raise.
  - change (ls_features (with_trace st _)) with (ls_features st).
    destruct (ls_features st) as [| | | |xs|] eqn:Hxs;
      try (eapply round_no_list; [done..|]; intros xs; by rewrite Hxs).
    unfold persist.
    change (ls_fs (with_trace st _)) with (ls_fs st).
    destruct (write_file _ _ _ _) as [ok f'] eqn:Hw.
    cbn [fst snd with_trace ls_trace ls_existing]. rewrite <-!app_assoc.
    by eapply round_persist.
  - cbn [fst snd with_trace ls_trace]. unfold with_trace at 1.
    cbn [ls_features ls_existing ls_fs ls_trace]. rewrite <-app_assoc.
    by eapply round_no_feature.
Qed.

Lemma event_in_app (l1 l2 a b : list event) (x : event) :
  l1 ++ l2 = a ++ x :: b →
  (∃ b', l1 = a ++ x :: b' ∧ b = b' ++ l2) ∨
  (∃ a', l2 = a' ++ x :: b ∧ a = l1 ++ a').
Proof.
  revert a. induction l1 as [|y l1 IH]; intros a H; simpl in H.
  - right. by exists a.
  - destruct a as [|z a]; simpl in H.
    + left. injection H as -> <-. by exists l1.
    + injection H as -> H. destruct (IH _ H) as [(b' & -> & ->)|(a' & -> & ->)].
      * left. by exists b'.
      * right. by exists a'.
Qed.

Lemma fetched_app (l1 l2 : list event) :
  fetched (l1 ++ l2) = fetched l1 ++ fetched l2.
Proof. apply omap_app. Qed.

Lemma yielded_app (svc : service) (d t v : string) (l1 l2 : list event) :
  yielded svc d t v (l1 ++ l2) = yielded svc d t v l1 ++ yielded svc d t v l2.
Proof. apply omap_app. Qed.

Section PlotLoop.
Variable self : BhuNakshaExtractor.
Variable svc : service.
Variable gis_code : option string.
Variables d t v out : string.
Variable info : json.
Variable total : nat.

Local Abbreviation loop := (plot_loop self svc gis_code d t v out info total).
Local Abbreviation rnd := (round self svc gis_code d t v out info total).
Local Abbreviation gis := (code_str gis_code).
Local Abbreviation path := (output_path t v out).
Local Abbreviation output := (make_output self gis_code d t v info total).
Local Abbreviation writes_ok := (writes_ok self svc gis_code d t v out info total).
Local Abbreviation features_inv :=
  (features_inv self svc gis_code d t v out info total).
Local Abbreviation disk_inv := (disk_inv t v out).

(** Reasoning on the loop goes round by round. *)
Lemma plot_loop_rounds
    (P : nat → list json → loop_state → option exn → loop_state → Prop) :
  (∀ i st, P i [] st None st) →
  (∀ i p L st e st1, rnd i p st (Some e) st1 → P i (p :: L) st (Some e) st1) →
  (∀ i p L st st1 e st',
     rnd i p st None st1 → loop (S i) L st1 = (e, st') →
     P (S i) L st1 e st' → P i (p :: L) st e st') →
  ∀ L i st e st', loop i L st = (e, st') → P i L st e st'.
Proof.
  intros H0 H1 H2 L. induction L as [|p L IH]; intros i st e st' Hl; simpl in Hl.
  - injection Hl as <- <-. apply H0.
  - pose proof (plot_step_round self svc gis_code d t v out info total i p st) as Hr.
    destruct (plot_step _ _ _ _ _ _ _ _ _ _ _ _) as [[e1|] st1]; simpl in Hr.
    + injection Hl as <- <-. by apply H1.
    + eapply H2; eauto.
Qed.

(** *** Which plots are fetched *)

Lemma round_fetches i p st e st1 :
  rnd i p st e st1 →
  ls_existing st ⊆ ls_existing st1 ∧
  (∀ k, k ∈ ls_existing st1 → k ∈ ls_existing st ∨ hash_key p = Some k) ∧
  ∃ new, ls_trace st1 = ls_trace st ++ new ∧
    ((fetched new = [] ∧
      (e = None → ∃ k, hash_key p = Some k ∧ k ∈ ls_existing st) ∧
      st1 = st) ∨
     (fetched new = [p] ∧ ∃ k, hash_key p = Some k ∧ k ∉ ls_existing st)).
Proof.
  destruct 1 as [Hk|k Hk Hin|k e Hk Hin Hf|k Hk Hin Hf|k ft Hk Hin Hf Hx
                 |k ft xs ok f' Hk Hin Hf Hx Hw]; simpl.
  - split; [done|]. split; [by left|]. exists []. rewrite app_nil_r.
    split; [done|]. left. split; [done|]. split; [done|done].
  - split; [done|]. split; [by left|]. exists []. rewrite app_nil_r.
    split; [done|]. left. split; [done|]. split; [eauto|done].
  - split; [done|]. split; [by left|]. eexists. split; [done|]. right. eauto.
  - split; [done|]. split; [by left|]. eexists. split; [done|]. right. eauto.
  - split; [done|]. split; [by left|]. eexists. split; [done|]. right. eauto.
  - split; [|split].
    + destruct ok; set_solver.
    + intros k'. destruct ok; [|by left].
      rewrite elem_of_union, elem_of_singleton. intros [->|?]; eauto.
    + eexists. split; [done|]. right. split; [|eauto].
      by destruct ok.
Qed.

Lemma loop_fetches L i st e st' :
  loop i L st = (e, st') →
  ls_existing st ⊆ ls_existing st' ∧
  ∃ new, ls_trace st' = ls_trace st ++ new ∧
    fetched new `sublist_of` L ∧
    (∀ q, q ∈ fetched new → ∃ k, hash_key q = Some k ∧ k ∉ ls_existing st) ∧
    (e = None → ∀ q k, q ∈ L → hash_key q = Some k → k ∉ ls_existing st →
                ∃ q', q' ∈ fetched new ∧ hash_key q' = Some k).
Proof.
  revert L i st e st'. apply plot_loop_rounds.
  - intros i st. split; [done|]. exists []. rewrite app_nil_r.
    split; [done|]. split; [done|]. split.
    + intros q Hq. by apply elem_of_nil in Hq.
    + intros _ q k Hq. by apply elem_of_nil in Hq.
  - intros i p L st e st1 (Hsub & _ & new & Hnew & Hcase)%round_fetches.
    split; [done|]. exists new. split; [done|].
    destruct Hcase as [(Hf & _ & _)|(Hf & k & Hk & Hin)]; rewrite Hf.
    + split; [apply sublist_nil_l|]. split; [|done].
      intros q Hq. by apply elem_of_nil in Hq.
    + split; [by apply sublist_skip, sublist_nil_l|]. split; [|done].
      intros q ->%list_elem_of_singleton. eauto.
  - intros i p L st st1 e st' (Hsub1 & Hprov & new1 & Hnew1 & Hcase)%round_fetches
      Hl (Hsub2 & new2 & Hnew2 & Hsl & Hnot & Hcov).
    split; [set_solver|].
    exists (new1 ++ new2). rewrite fetched_app.
    split; [by rewrite Hnew2, Hnew1, app_assoc|].
    split; [|split].
    + change (p :: L) with ([p] ++ L). apply sublist_app; [|done].
      destruct Hcase as [(-> & _)|(-> & _)]; [apply sublist_nil_l|done].
    + intros q [Hq|Hq]%elem_of_app.
      * destruct Hcase as [(Hf & _)|(Hf & k & Hk & Hin)]; rewrite Hf in Hq.
        -- by apply elem_of_nil in Hq.
        -- apply list_elem_of_singleton in Hq as ->. eauto.
      * destruct (Hnot q Hq) as (k & Hk & Hin). exists k. split; [done|].
        set_solver.
    + intros He q k Hq Hk Hin.
      assert (Hp : hash_key p = Some k → ∃ q', q' ∈ fetched new1 ++ fetched new2
                                              ∧ hash_key q' = Some k).
      { intros Hpk.
        destruct Hcase as [(_ & Hskip & _)|(Hf & _)].
        - destruct (Hskip eq_refl) as (k' & Hk' & Hin'). congruence.
        - exists p. rewrite Hf. split; [|done]. apply elem_of_app. left.
          by apply list_elem_of_singleton. }
      apply elem_of_cons in Hq as [->|Hq]; [by apply Hp|].
      destruct (decide (k ∈ ls_existing st1)) as [Hin1|Hin1].
      * destruct (Hprov k Hin1) as [?|Hpk]; [done|by apply Hp].
      * destruct (Hcov He q k Hq Hk Hin1) as (q' & Hq' & Hk').
        exists q'. split; [|done]. apply elem_of_app. by right.
Qed.

(** When every plot of the list is in the set already, no round does
    anything. *)
Lemma loop_all_present L i st :
  (∀ q, q ∈ L → ∃ k, hash_key q = Some k ∧ k ∈ ls_existing st) →
  loop i L st = (None, st).
Proof.
  revert i. induction L as [|p L IH]; intros i Hall; [done|]. simpl.
  destruct (Hall p) as (k & Hk & Hin); [by left|].
  unfold plot_step. rewrite Hk, decide_True by done.
  apply IH. intros q Hq. apply Hall. by right.
Qed.

(** *** What is written *)

Lemma no_write_split (a b : list event) pth c ok :
  ¬ no_write (a ++ WriteFile pth c ok :: b).
Proof.
  intros H. apply Forall_app in H as [_ H]. by inversion H.
Qed.

Lemma writes_ok_no_write xs0 (trace : list event) :
  no_write trace → writes_ok xs0 trace.
Proof. intros H a pth c ok b ->. by apply no_write_split in H. Qed.

Lemma writes_ok_app xs0 (trace new : list event) :
  writes_ok xs0 trace → no_write new → writes_ok xs0 (trace ++ new).
Proof.
  intros H Hnew a pth c ok b Heq.
  apply event_in_app in Heq as [(b' & -> & ->)|(a' & -> & ->)].
  - by eapply H.
  - by apply no_write_split in Hnew.
Qed.

Lemma writes_ok_snoc xs0 (trace : list event) j q c ok :
  writes_ok xs0 trace →
  c = output j (xs0 ++ yielded svc d t v (trace ++ [GetPlotGeometry j gis q])) →
  writes_ok xs0 ((trace ++ [GetPlotGeometry j gis q]) ++ [WriteFile path c ok]).
Proof.
  intros H Hc a pth c' ok' b Heq.
  apply event_in_app in Heq as [(b' & Heq & ->)|(a' & Heq & ->)].
  - apply event_in_app in Heq as [(b'' & -> & ->)|(a'' & Heq & ->)].
    + by eapply H.
    + destruct a'' as [|? [|? ?]]; simplify_eq/=.
  - destruct a' as [|? [|? ?]]; simplify_eq/=.
    rewrite app_nil_r. split; [done|]. by exists trace, j, q.
Qed.

Lemma yield_of_feature i p feature :
  plot_feature svc d t v (get_plot_geometry svc i gis p) = inr (Some feature) →
  yield svc d t v i gis p = Some feature.
Proof. unfold yield. by intros ->. Qed.

Lemma round_features xs0 i p st e st1 :
  rnd i p st e st1 → features_inv xs0 st → features_inv xs0 st1.
Proof.
  intros Hr [Hfe Hw].
  destruct Hr as [Hk|k Hk Hin|k e Hk Hin Hf|k Hk Hin Hf|k ft Hk Hin Hf Hx
                 |k ft xs ok f' Hk Hin Hf Hx Hwf]; try done.
  - split; simpl.
    + rewrite yielded_app. simpl. unfold yield. rewrite Hf. simpl.
      by rewrite app_nil_r.
    + apply writes_ok_app; [done|]. by repeat constructor.
  - split; simpl.
    + rewrite yielded_app. simpl. unfold yield. rewrite Hf. simpl.
      by rewrite app_nil_r.
    + apply writes_ok_app; [done|]. by repeat constructor.
  - exfalso. by eapply Hx.
  - rewrite Hfe in Hx. injection Hx as <-.
    assert (Hy : yielded svc d t v
                   ((ls_trace st ++ [Print (Processing p (i + 1) total)])
                    ++ [GetPlotGeometry i gis p])
                 = yielded svc d t v (ls_trace st) ++ [ft]).
    { rewrite !yielded_app. simpl. rewrite (yield_of_feature _ _ _ Hf). simpl.
      by rewrite app_nil_r. }
    split; simpl.
    + rewrite !yielded_app. simpl. rewrite (yield_of_feature _ _ _ Hf). simpl.
      assert (yielded svc d t v ((if ok then [] else [Print SaveError]) ++ [Sleep])
              = []) as -> by by destruct ok.
      by rewrite <-app_assoc.
    + replace (ls_trace st ++ _) with
        ((((ls_trace st ++ [Print (Processing p (i + 1) total)])
           ++ [GetPlotGeometry i gis p])
          ++ [WriteFile path (output i ((xs0 ++ yielded svc d t v (ls_trace st)) ++ [ft])) ok])
         ++ ((if ok then [] else [Print SaveError]) ++ [Sleep]))
        by (by rewrite <-!app_assoc).
      apply writes_ok_app; [|destruct ok; by repeat constructor].
      apply writes_ok_snoc.
      * apply writes_ok_app; [done|]. by repeat constructor.
      * by rewrite Hy, app_assoc.
Qed.

Lemma loop_features xs0 L i st e st' :
  loop i L st = (e, st') → features_inv xs0 st → features_inv xs0 st'.
Proof.
  revert L i st e st'.
  apply (plot_loop_rounds
           (fun _ _ st _ st' => features_inv xs0 st → features_inv xs0 st'));
    [done|..].
  - intros i p L st e st1 Hr. by eapply round_features.
  - intros i p L st st1 e st' Hr _ IH Hinv. apply IH. by eapply round_features.
Qed.

Lemma round_no_list_inv i p st e st1 :
  rnd i p st e st1 → no_list_inv st → no_list_inv st1.
Proof.
  intros Hr [Hfe Hw].
  destruct Hr as [Hk|k Hk Hin|k e Hk Hin Hf|k Hk Hin Hf|k ft Hk Hin Hf Hx
                 |k ft xs ok f' Hk Hin Hf Hx Hwf]; try done.
  - split; [done|]. apply Forall_app. split; [done|]. by repeat constructor.
  - split; [done|]. apply Forall_app. split; [done|]. by repeat constructor.
  - split; [done|]. apply Forall_app. split; [done|]. by repeat constructor.
  - exfalso. by eapply Hfe.
Qed.

Lemma loop_no_list_inv L i st e st' :
  loop i L st = (e, st') → no_list_inv st → no_list_inv st'.
Proof.
  revert L i st e st'.
  apply (plot_loop_rounds (fun _ _ st _ st' => no_list_inv st → no_list_inv st'));
    [done|..].
  - intros i p L st e st1 Hr. by eapply round_no_list_inv.
  - intros i p L st st1 e st' Hr _ IH Hinv. apply IH. by eapply round_no_list_inv.
Qed.

(** *** The file system *)

Lemma write_file_ok (pth : string) (c : json) (r : write_result)
    (f f' : gmap string node) :
  write_file pth c r f = (true, f') → f' = <[pth := File (TextJson c)]> f.
Proof.
  unfold write_file. intros H.
  destruct (f !! pth) as [[|?]|], r; by simplify_eq.
Qed.

Lemma write_file_other (pth : string) (c : json) (r : write_result)
    (f f' : gmap string node) (ok : bool) (q : string) :
  write_file pth c r f = (ok, f') → q ≠ pth → f' !! q = f !! q.
Proof.
  unfold write_file. intros H Hq.
  destruct (f !! pth) as [[|?]|], r; simplify_eq; try done;
    by rewrite lookup_insert_ne.
Qed.

Lemma disk_inv_app (st st1 : loop_state) (new : list event) :
  disk_inv st → ls_fs st1 = ls_fs st → ls_trace st1 = ls_trace st ++ new →
  no_write new → disk_inv st1.
Proof.
  intros H Hfs Htr Hnew a pth c b Heq Hb. rewrite Htr in Heq. rewrite Hfs.
  apply event_in_app in Heq as [(b' & Heq & ->)|(a' & -> & ->)].
  - apply Forall_app in Hb as [Hb _]. by eapply H.
  - by apply no_write_split in Hnew.
Qed.

Lemma round_disk i p st e st1 :
  rnd i p st e st1 → disk_inv st → disk_inv st1.
Proof.
  intros Hr Hinv.
  destruct Hr as [Hk|k Hk Hin|k e Hk Hin Hf|k Hk Hin Hf|k ft Hk Hin Hf Hx
                 |k ft xs ok f' Hk Hin Hf Hx Hwf]; try done.
  - eapply disk_inv_app; [done..|]. by repeat constructor.
  - eapply disk_inv_app; [done..|]. by repeat constructor.
  - eapply disk_inv_app; [done..|]. by repeat constructor.
  - intros a pth c b Heq Hb. simpl in *.
    apply event_in_app in Heq as [(b' & Heq & ->)|(a' & Heq & ->)].
    + apply Forall_app in Hb as [_ Hb]. exfalso.
      simpl in Hb.
      inversion Hb as [|? ? _ Hb1]. inversion Hb1 as [|? ? _ Hb2].
      by inversion Hb2.
    + destruct a' as [|? [|? [|? a']]]; simplify_eq/=.
      * apply write_file_ok in Hwf as ->. apply lookup_insert_eq.
      * destruct ok; simpl in *.
        -- destruct a' as [|? [|? ?]]; simplify_eq/=.
        -- destruct a' as [|? [|? [|? ?]]]; simplify_eq/=.
Qed.

Lemma loop_disk L i st e st' :
  loop i L st = (e, st') → disk_inv st → disk_inv st'.
Proof.
  revert L i st e st'.
  apply (plot_loop_rounds (fun _ _ st _ st' => disk_inv st → disk_inv st'));
    [done|..].
  - intros i p L st e st1 Hr. by eapply round_disk.
  - intros i p L st st1 e st' Hr _ IH Hinv. apply IH. by eapply round_disk.
Qed.

(** Only the output file changes. *)
Lemma round_frame i p st e st1 q :
  rnd i p st e st1 → q ≠ path → ls_fs st1 !! q = ls_fs st !! q.
Proof.
  intros Hr Hq.
  destruct Hr as [Hk|k Hk Hin|k e Hk Hin Hf|k Hk Hin Hf|k ft Hk Hin Hf Hx
                 |k ft xs ok f' Hk Hin Hf Hx Hwf]; try done.
  simpl. by eapply write_file_other.
Qed.

Lemma loop_frame L i st e st' q :
  loop i L st = (e, st') → q ≠ path → ls_fs st' !! q = ls_fs st !! q.
Proof.
  intros Hl Hq. revert L i st e st' Hl.
  apply (plot_loop_rounds
           (fun _ _ st _ st' => ls_fs st' !! q = ls_fs st !! q)); [done|..].
  - intros i p L st e st1 Hr. by eapply round_frame.
  - intros i p L st st1 e st' Hr _ IH. rewrite IH. by eapply round_frame.
Qed.

End PlotLoop.

(** ** os.makedirs *)

Lemma mkdir_exist_ok_spec (p : string) (f f' : gmap string node) :
  mkdir_exist_ok p f = inr f' →
  f' !! p = Some Dir ∧
  (f !! p = None ∨ f !! p = Some Dir) ∧
  ∀ q, q ≠ p → f' !! q = f !! q.
Proof.
  unfold mkdir_exist_ok. destruct (f !! p) as [[|c]|] eqn:Hp; intros [= <-].
  - eauto.
  - rewrite lookup_insert_eq. split; [done|]. split; [by left|].
    intros q Hq. by rewrite lookup_insert_ne.
Qed.

Lemma mkdir_all_spec (ps : list string) (f f' : gmap string node) :
  mkdir_all ps f = inr f' →
  ∀ q, (q ∈ ps → f' !! q = Some Dir ∧ (f !! q = None ∨ f !! q = Some Dir)) ∧
       (q ∉ ps → f' !! q = f !! q).
Proof.
  revert f. induction ps as [|p ps IH]; intros f H q; simpl in H.
  - injection H as <-. split; [by intros ?%elem_of_nil|done].
  - destruct (mkdir_exist_ok p f) as [e|f1] eqn:H1; [done|]. simpl in H.
    apply mkdir_exist_ok_spec in H1 as (Hp & Hold & Hother).
    destruct (IH _ H q) as [Hin Hout].
    destruct (decide (q ∈ ps)) as [Hq|Hq].
    + destruct (Hin Hq) as [Hd Hf1]. split; [|by rewrite not_elem_of_cons; intros [_ ?]].
      intros _. split; [done|].
      destruct (decide (q = p)) as [->|Hne]; [done|]. by rewrite <-Hother.
    + rewrite (Hout Hq). split.
      * intros [->|?]%elem_of_cons; done.
      * rewrite not_elem_of_cons. intros [Hne _]. by apply Hother.
Qed.

Lemma makedirs_spec (p : string) (f f' : gmap string node) :
  makedirs p f = inr f' →
  f' !! p = Some Dir ∧
  (∀ q, f' !! q = f !! q ∨
        (f !! q = None ∧ f' !! q = Some Dir ∧ (q = p ∨ q ∈ parents p))) ∧
  (∀ q c, f' !! q = Some (File c) ↔ f !! q = Some (File c)).
Proof.
  unfold makedirs. destruct (String.eqb p ""); [done|]. intros H.
  pose proof (mkdir_all_spec _ _ _ H) as Hs.
  assert (Hq : ∀ q, f' !! q = f !! q ∨
                 (f !! q = None ∧ f' !! q = Some Dir ∧ (q = p ∨ q ∈ parents p))).
  { intros q. destruct (Hs q) as [Hin Hout].
    destruct (decide (q ∈ parents p ++ [p])) as [Hq|Hq]; [|left; by apply Hout].
    destruct (Hin Hq) as [Hd [Hn|Hn]]; [|left; congruence].
    right. split; [done|]. split; [done|].
    apply elem_of_app in Hq as [?|?%list_elem_of_singleton]; eauto. }
  split; [|split; [done|]].
  - apply (Hs p). apply elem_of_app. right. by apply list_elem_of_singleton.
  - intros q c. destruct (Hq q) as [->|(Hn & Hd & _)]; [done|].
    rewrite Hn, Hd. split; done.
Qed.

(** ** The run as a whole *)

Lemma quiet_fetched (trace : list event) : quiet trace → fetched trace = [].
Proof.
  induction 1 as [|e tr [_ He] _ IH]; [done|]. simpl. rewrite IH.
  by destruct e.
Qed.

Lemma quiet_yielded (svc : service) (d t v : string) (trace : list event) :
  quiet trace → yielded svc d t v trace = [].
Proof.
  induction 1 as [|e tr [_ He] _ IH]; [done|]. simpl. rewrite IH.
  by destruct e.
Qed.

Lemma quiet_no_write (trace : list event) : quiet trace → no_write trace.
Proof. apply Forall_impl. by intros e [? _]. Qed.

Lemma quiet_app (l1 l2 : list event) : quiet l1 → quiet l2 → quiet (l1 ++ l2).
Proof. intros. by apply Forall_app. Qed.

Lemma load_document_len (data : json) (l : locals) :
  load_document data = inr l → ∃ n, py_len (all_features l) = inr n.
Proof.
  unfold load_document. intros H.
  destruct (py_get "features" (JList []) data) as [|features]; [done|].
  simpl in H.
  destruct (py_get "metadata" (JDict ∅) data) as [|metadata]; [done|].
  simpl in H.
  destruct (py_get "village_info" (JDict ∅) metadata) as [|vi]; [done|].
  simpl in H.
  destruct (py_iter features) as [|items] eqn:Hi; [done|]. simpl in H.
  destruct (scan_features items ∅) as [|s]; [done|]. simpl in H.
  injection H as <-. simpl. destruct features; simpl in *; eauto; done.
Qed.

Lemma loaded_len (refused : bool) (f : gmap string node) (pth : string)
    (l : locals) :
  loaded (read_existing refused f pth) = Some l →
  ∃ n, py_len (all_features l) = inr n.
Proof.
  unfold read_existing.
  destruct (f !! pth) as [[|[data| |]]|], refused; simpl;
    try (intros [= <-]; by eexists); try done.
  destruct (load_document data) as [|l'] eqn:Hl; simpl; [done|].
  intros [= <-]. by eapply load_document_len.
Qed.

Arguments plot_loop : simpl never.

Lemma extract_from_cases (self : BhuNakshaExtractor) (svc : service)
    (gis_code : option string) (d t v out : string) (l : locals)
    (f : gmap string node) (tr : list event) :
  let r := extract_from self svc gis_code d t v out l f tr in
  let L := get_plot_list svc (code_str gis_code) in
  (out_fs r = f ∧ out_raised r = None ∧
   (∃ new, out_trace r = tr ++ new ∧ quiet new) ∧
   (code_truthy gis_code = false ∨ L = [] ∨
    size (existing_plot_nos l) = List.length L))
  ∨
  (code_truthy gis_code = true ∧ L ≠ [] ∧
   size (existing_plot_nos l) ≠ List.length L ∧
   ∃ info pre e st' post,
     quiet pre ∧ quiet post ∧
     plot_loop self svc gis_code d t v out info (List.length L) 0 L
       {| ls_features := all_features l;
          ls_existing := existing_plot_nos l;
          ls_fs := f;
          ls_trace := tr ++ pre |} = (e, st') ∧
     out_fs r = ls_fs st' ∧
     out_trace r = ls_trace st' ++ post ∧
     out_raised r = match e with
                    | Some x => Some x
                    | None =>
                        match py_len (ls_features st') with
                        | inl x => Some x
                        | inr _ => None
                        end
                    end).
Proof.
  intros r L. subst r. unfold extract_from.
  destruct (code_truthy gis_code) eqn:Hg; simpl.
  2:{ left. split; [done|]. split; [done|]. split; [|by left].
      eexists. split; [done|]. by repeat constructor. }
  fold L.
  set (it := if negb (truthy (village_info l)) then _ else _).
  assert (Hit : ∃ info pre0, it = (info, tr ++ pre0) ∧ quiet pre0).
  { subst it. destruct (negb _).
    - eexists _, _. split; [done|]. by repeat constructor.
    - exists (village_info l), []. rewrite app_nil_r. split; [done|]. constructor. }
  destruct Hit as (info & pre0 & -> & Hpre0).
  unfold truthy. rewrite negb_involutive.
  destruct (Nat.eqb (List.length L) 0) eqn:HL.
  { left. split; [done|]. split; [done|]. split.
    - eexists. rewrite <-!app_assoc. split; [done|].
      apply quiet_app; [done|]. by repeat constructor.
    - right. left. apply Nat.eqb_eq in HL. by destruct L. }
  destruct (Nat.eqb (size (existing_plot_nos l)) (List.length L)) eqn:Hsz.
  { left. split; [done|]. split; [done|]. split.
    - eexists. rewrite <-!app_assoc. split; [done|].
      apply quiet_app; [done|]. by repeat constructor.
    - right. right. by apply Nat.eqb_eq. }
  right. split; [done|]. split; [by intros HL'; rewrite HL' in HL|].
  split; [by apply Nat.eqb_neq|].
  rewrite <-!app_assoc.
  destruct (plot_loop _ _ _ _ _ _ _ _ _ _ L _) as [e st'] eqn:Hloop.
  exists info, (pre0 ++ [GetPlotList (code_str gis_code)]
                ++ [Print (TotalPlots v (List.length L))]), e, st'.
  destruct e as [x|].
  - exists []. rewrite app_nil_r. split; [|by repeat constructor].
    apply quiet_app; [done|]. by repeat constructor.
  - destruct (py_len (ls_features st')) as [x|n] eqn:Hlen.
    + exists []. rewrite app_nil_r. split; [|by repeat constructor].
      apply quiet_app; [done|]. by repeat constructor.
    + eexists [_]. split; [|by repeat constructor].
      apply quiet_app; [done|]. by repeat constructor.
Qed.

Lemma run_cases (self : BhuNakshaExtractor) (svc : service)
    (gis_code : option string) (d t v out : string) (f : gmap string node) :
  let r := extract_and_save_village_data self svc gis_code d t v out f in
  (∃ e, makedirs (taluk_dir t out) f = inl e ∧
        out_fs r = f ∧ out_trace r = [Makedirs (taluk_dir t out)] ∧
        out_raised r = Some e) ∨
  (∃ f1, makedirs (taluk_dir t out) f = inr f1 ∧
     ((∃ e, read_existing (read_refused svc) f1 (output_path t v out) = ReadRaised e ∧
            out_fs r = f1 ∧ out_trace r = [Makedirs (taluk_dir t out)] ∧
            out_raised r = Some e) ∨
      (∃ l tr, loaded (read_existing (read_refused svc) f1 (output_path t v out)) = Some l ∧
               quiet tr ∧ head tr = Some (Makedirs (taluk_dir t out)) ∧
               r = extract_from self svc gis_code d t v out l f1 tr))).
Proof.
  intros r. subst r. unfold extract_and_save_village_data.
  destruct (makedirs (taluk_dir t out) f) as [e|f1]; [left; by exists e|].
  right. exists f1. split; [done|].
  destruct (read_existing (read_refused svc) f1 (output_path t v out)) as [| |l|e] eqn:Hr.
  - right. exists fresh, [Makedirs (taluk_dir t out)].
    split; [done|]. split; [by repeat constructor|done].
  - right. exists fresh, ([Makedirs (taluk_dir t out)] ++ [Print (WarnUnreadable v)]).
    split; [done|]. split; [by repeat constructor|done].
  - right.
    exists l, ([Makedirs (taluk_dir t out)]
               ++ [Print (FoundExisting v (size (existing_plot_nos l)))]).
    split; [done|]. split; [by repeat constructor|done].
  - left. by exists e.
Qed.

(** ** The resume short-circuit *)

(** C2: when the plot numbers recovered from the existing file cover the
    fetched plot list, the run returns without a call for plot detail and
    without a write; the file system is as [os.makedirs] left it. *)
Theorem resume_short_circuit (self : BhuNakshaExtractor) (svc : service)
    (gis_code : option string) (d t v out : string)
    (f f1 : gmap string node) (l : locals) :
  makedirs (taluk_dir t out) f = inr f1 →
  loaded (read_existing (read_refused svc) f1 (output_path t v out)) = Some l →
  (∀ q, q ∈ get_plot_list svc (code_str gis_code) →
        ∃ k, hash_key q = Some k ∧ k ∈ existing_plot_nos l) →
  let r := extract_and_save_village_data self svc gis_code d t v out f in
  out_raised r = None ∧
  fetched (out_trace r) = [] ∧
  no_write (out_trace r) ∧
  out_fs r = f1.
Proof.
  intros Hmk Hld Hcov r.
  destruct (run_cases self svc gis_code d t v out f)
    as [(e & He & _)|(f1' & Hf1 & [(e & He & _)|(l' & tr & Hl' & Htr & _ & Hr)])].
  - congruence.
  - rewrite Hmk in Hf1. injection Hf1 as <-. by rewrite He in Hld.
  - rewrite Hmk in Hf1. injection Hf1 as <-.
    rewrite Hld in Hl'. injection Hl' as <-.
    fold r in Hr. rewrite Hr.
    destruct (extract_from_cases self svc gis_code d t v out l f1 tr)
      as [(Hfs & Hra & (new & Hnew & Hq) & _)
         |(_ & _ & _ & info & pre & e & st' & post & Hpre & Hpost & Hloop
             & Hfs & Htrace & Hra)].
    + rewrite Hfs, Hra, Hnew. split; [done|].
      split; [apply quiet_fetched; by apply quiet_app|].
      split; [|done]. apply quiet_no_write. by apply quiet_app.
    + rewrite loop_all_present in Hloop by done. injection Hloop as <- <-.
      rewrite Hfs, Hra, Htrace. simpl.
      destruct (loaded_len _ _ _ _ Hld) as [n ->].
      split; [done|].
      split; [apply quiet_fetched; by repeat apply quiet_app|].
      split; [|done]. apply quiet_no_write. by repeat apply quiet_app.
Qed.

Lemma quiet_split (a b : list event) pth c ok :
  ¬ quiet (a ++ WriteFile pth c ok :: b).
Proof. intros H%quiet_no_write. by apply no_write_split in H. Qed.

(** ** The taluk directory *)

(** C10: the taluk directory is made on entry, before the identifier and
    the plot list are looked at.  When [os.makedirs] succeeds and the
    village is skipped (no identifier, or an empty plot list), the file
    system afterwards is the one [os.makedirs] left: the taluk directory
    exists, no regular file was created or changed, and the only paths
    that differ are the taluk directory and those of its parent directories
    that were missing. *)
Theorem taluk_dir_created (self : BhuNakshaExtractor) (svc : service)
    (gis_code : option string) (d t v out : string)
    (f f1 : gmap string node) :
  makedirs (taluk_dir t out) f = inr f1 →
  code_truthy gis_code = false ∨ get_plot_list svc (code_str gis_code) = [] →
  let r := extract_and_save_village_data self svc gis_code d t v out f in
  head (out_trace r) = Some (Makedirs (taluk_dir t out)) ∧
  out_fs r = f1 ∧
  out_fs r !! taluk_dir t out = Some Dir ∧
  no_write (out_trace r) ∧
  (∀ q c, out_fs r !! q = Some (File c) ↔ f !! q = Some (File c)) ∧
  (∀ q, out_fs r !! q = f !! q ∨
        (f !! q = None ∧ out_fs r !! q = Some Dir ∧
         (q = taluk_dir t out ∨ q ∈ parents (taluk_dir t out)))).
Proof.
  intros Hmk Hskip r.
  destruct (makedirs_spec _ _ _ Hmk) as (Hdir & Hframe & Hfiles).
  assert (Hr : head (out_trace r) = Some (Makedirs (taluk_dir t out)) ∧
               out_fs r = f1 ∧ no_write (out_trace r)).
  { destruct (run_cases self svc gis_code d t v out f)
      as [(e & He & _)|(f1' & Hf1 & [(e & He & Hfs & Htr & _)
                                    |(l' & tr & Hl' & Htr & Hhd & Hr)])].
    - congruence.
    - rewrite Hmk in Hf1. injection Hf1 as <-. fold r in Hfs, Htr.
      rewrite Htr, Hfs. split; [done|]. split; [done|]. by repeat constructor.
    - rewrite Hmk in Hf1. injection Hf1 as <-. fold r in Hr.
      destruct (extract_from_cases self svc gis_code d t v out l' f1 tr)
        as [(Hfs & _ & (new & Hnew & Hq) & _)|(Hg & HL & _)].
      + rewrite Hr, Hfs, Hnew. split; [by destruct tr|]. split; [done|].
        apply quiet_no_write. by apply quiet_app.
      + destruct Hskip; congruence. }
  destruct Hr as (Hhd & -> & Hnw).
  split; [done|]. split; [done|]. split; [done|]. split; [done|].
  split; [apply Hfiles|apply Hframe].
Qed.

Lemma taluk_dir_created_witness :
  out_fs (ex_run (ex_remote ex_both ex_detail always_ok) None ex_empty)
    !! "data_Pune/Haveli" = Some Dir ∧
  no_write (out_trace (ex_run (ex_remote ex_both ex_detail always_ok) None ex_empty)).
Proof.
  pose proof (taluk_dir_created ex_self (ex_remote ex_both ex_detail always_ok)
                None "Pune" "Haveli" "Wadgaon" "data_Pune" ex_empty ex_dirs
                ltac:(vm_compute; reflexivity) (or_introl eq_refl)) as H.
  split; [apply H|apply H].
Defined.

Lemma resume_short_circuit_witness :
  fetched (out_trace (ex_run (ex_remote ex_both ex_detail always_ok) ex_gis ex_fs_done))
    = [] ∧
  out_fs (ex_run (ex_remote ex_both ex_detail always_ok) ex_gis ex_fs_done)
    = ex_fs_done.
Proof.
  assert (Hcov : ∀ q, q ∈ ex_both →
            ∃ k, hash_key q = Some k ∧ k ∈ existing_plot_nos (ex_locals ex_fs_done)).
  { intros q Hq. unfold ex_both in Hq.
    apply elem_of_cons in Hq as [->|Hq];
      [|apply list_elem_of_singleton in Hq as ->];
      (eexists; split; [reflexivity|]);
      refine (bool_decide_unpack _ _); vm_compute; exact I. }
  pose proof (resume_short_circuit ex_self (ex_remote ex_both ex_detail always_ok)
                ex_gis "Pune" "Haveli" "Wadgaon" "data_Pune"
                ex_fs_done ex_fs_done (ex_locals ex_fs_done)
                ltac:(vm_compute; reflexivity) ltac:(vm_compute; reflexivity)
                Hcov) as H.
  split; apply H.
Defined.

(** ** The run and its plot loop *)

(** A run either never reaches the loop, and then does nothing but print and
    ask for lists, or it is the loop started on what was loaded. *)
Lemma run_loop (self : BhuNakshaExtractor) (svc : service)
    (gis_code : option string) (d t v out : string) (f : gmap string node) :
  let r := extract_and_save_village_data self svc gis_code d t v out f in
  let L := get_plot_list svc (code_str gis_code) in
  quiet (out_trace r) ∨
  ∃ f1 l info tr0 e st' post,
    makedirs (taluk_dir t out) f = inr f1 ∧
    loaded (read_existing (read_refused svc) f1 (output_path t v out)) = Some l ∧
    code_truthy gis_code = true ∧
    size (existing_plot_nos l) ≠ List.length L ∧
    quiet tr0 ∧ quiet post ∧
    plot_loop self svc gis_code d t v out info (List.length L) 0 L
      {| ls_features := all_features l;
         ls_existing := existing_plot_nos l;
         ls_fs := f1;
         ls_trace := tr0 |} = (e, st') ∧
    out_fs r = ls_fs st' ∧
    out_trace r = ls_trace st' ++ post ∧
    out_raised r = match e with
                   | Some x => Some x
                   | None =>
                       match py_len (ls_features st') with
                       | inl x => Some x
                       | inr _ => None
                       end
                   end.
Proof.
  intros r L.
  pose proof (run_cases self svc gis_code d t v out f) as Hc.
  cbv zeta in Hc. fold r in Hc.
  destruct Hc
    as [(e & He & _ & Htr & _)
       |(f1 & Hf1 & [(e & He & _ & Htr & _)|(l & tr & Hl & Htr & _ & Hr)])].
  - left. rewrite Htr. by repeat constructor.
  - left. rewrite Htr. by repeat constructor.
  - destruct (extract_from_cases self svc gis_code d t v out l f1 tr)
      as [(_ & _ & (new & Hnew & Hq) & _)
         |(Hg & _ & Hsz & info & pre & e & st' & post & Hpre & Hpost & Hloop
             & Hfs & Htrace & Hra)]; rewrite <-Hr in *.
    + left. rewrite Hnew. by apply quiet_app.
    + right. exists f1, l, info, (tr ++ pre), e, st', post.
      repeat (split; [done|]). split; [by apply quiet_app|].
      by repeat (split; [done|]).
Qed.

Lemma output_features_make (self : BhuNakshaExtractor)
    (gis_code : option string) (d t v : string) (info : json) (total j : nat)
    (xs : list json) :
  output_features (make_output self gis_code d t v info total j xs) = xs.
Proof. reflexivity. Qed.

(** Every write of a run follows its call and holds the loaded features
    followed by the features yielded so far. *)
Lemma run_writes (self : BhuNakshaExtractor) (svc : service)
    (gis_code : option string) (d t v out : string) (f : gmap string node)
    (a b : list event) (pth : string) (c : json) (ok : bool) :
  let r := extract_and_save_village_data self svc gis_code d t v out f in
  out_trace r = a ++ WriteFile pth c ok :: b →
  pth = output_path t v out ∧
  ∃ f1 l xs0 info a' j q,
    makedirs (taluk_dir t out) f = inr f1 ∧
    loaded (read_existing (read_refused svc) f1 (output_path t v out)) = Some l ∧
    all_features l = JList xs0 ∧
    a = a' ++ [GetPlotGeometry j (code_str gis_code) q] ∧
    c = make_output self gis_code d t v info
          (List.length (get_plot_list svc (code_str gis_code))) j
          (xs0 ++ yielded svc d t v a).
Proof.
  intros r Heq.
  pose proof (run_loop self svc gis_code d t v out f) as Hc.
  cbv zeta in Hc. fold r in Hc.
  destruct Hc
    as [Hq|(f1 & l & info & tr0 & e & st' & post & Hmk & Hl & _ & _ & Htr0
              & Hpost & Hloop & _ & Htrace & _)].
  { rewrite Heq in Hq. by apply quiet_split in Hq. }
  rewrite Htrace in Heq.
  apply event_in_app in Heq as [(b' & Heq & ->)|(a' & Heq & _)];
    [|rewrite Heq in Hpost; by apply quiet_split in Hpost].
  assert (Hno : (∀ xs, all_features l ≠ JList xs) → False).
  { intros Hno.
    assert (Hinv : no_list_inv st').
    { eapply loop_no_list_inv; [exact Hloop|].
      split; [done|by apply quiet_no_write]. }
    destruct Hinv as [_ Hnw]. rewrite Heq in Hnw. by apply no_write_split in Hnw. }
  destruct (all_features l) as [| | | |xs0|] eqn:Hxs;
    try (exfalso; apply Hno; intros xs; discriminate).
  eapply (loop_features _ _ _ _ _ _ _ _ _ xs0) in Hloop as [_ Hw].
  - destruct (Hw _ _ _ _ _ Heq) as (-> & a' & j & q & -> & ->).
    split; [done|]. by exists f1, l, xs0, info, a', j, q.
  - split; simpl.
    + by rewrite quiet_yielded, app_nil_r.
    + by apply writes_ok_no_write, quiet_no_write.
Qed.

(** After the run the file holds what the last write put there, when that
    write succeeded. *)
Lemma run_disk (self : BhuNakshaExtractor) (svc : service)
    (gis_code : option string) (d t v out : string) (f : gmap string node)
    (a b : list event) (pth : string) (c : json) :
  let r := extract_and_save_village_data self svc gis_code d t v out f in
  out_trace r = a ++ WriteFile pth c true :: b → no_write b →
  out_fs r !! output_path t v out = Some (File (TextJson c)).
Proof.
  intros r Heq Hb.
  pose proof (run_loop self svc gis_code d t v out f) as Hc.
  cbv zeta in Hc. fold r in Hc.
  destruct Hc
    as [Hq|(f1 & l & info & tr0 & e & st' & post & Hmk & Hl & _ & _ & Htr0
              & Hpost & Hloop & Hfs & Htrace & _)].
  { rewrite Heq in Hq. by apply quiet_split in Hq. }
  rewrite Htrace in Heq. rewrite Hfs.
  apply event_in_app in Heq as [(b' & Heq & ->)|(a' & Heq & _)];
    [|rewrite Heq in Hpost; by apply quiet_split in Hpost].
  apply Forall_app in Hb as [Hb _].
  eapply loop_disk in Hloop; [by eapply Hloop|].
  intros a0 p0 c0 b0 Heq0 _. simpl in Heq0.
  rewrite Heq0 in Htr0. by apply quiet_split in Htr0.
Qed.

(** The calls for plot detail of a run. *)
Lemma run_fetches (self : BhuNakshaExtractor) (svc : service)
    (gis_code : option string) (d t v out : string)
    (f f1 : gmap string node) (l : locals) :
  makedirs (taluk_dir t out) f = inr f1 →
  loaded (read_existing (read_refused svc) f1 (output_path t v out)) = Some l →
  let r := extract_and_save_village_data self svc gis_code d t v out f in
  let L := get_plot_list svc (code_str gis_code) in
  fetched (out_trace r) `sublist_of` L ∧
  (∀ q, q ∈ fetched (out_trace r) →
        ∃ k, hash_key q = Some k ∧ k ∉ existing_plot_nos l) ∧
  (code_truthy gis_code = true →
   size (existing_plot_nos l) ≠ List.length L →
   out_raised r = None →
   ∀ q k, q ∈ L → hash_key q = Some k → k ∉ existing_plot_nos l →
          ∃ q', q' ∈ fetched (out_trace r) ∧ hash_key q' = Some k).
Proof.
  intros Hmk Hl r L.
  pose proof (run_cases self svc gis_code d t v out f) as Hc.
  cbv zeta in Hc. fold r in Hc.
  destruct Hc
    as [(e & He & _)|(f1' & Hf1 & [(e & He & _)|(l' & tr & Hl' & Htr & _ & Hr)])].
  - congruence.
  - rewrite Hmk in Hf1. injection Hf1 as <-. by rewrite He in Hl.
  - rewrite Hmk in Hf1. injection Hf1 as <-.
    rewrite Hl in Hl'. injection Hl' as <-.
    destruct (extract_from_cases self svc gis_code d t v out l f1 tr)
      as [(_ & _ & (new & Hnew & Hq) & Hwhy)
         |(Hg & _ & Hsz & info & pre & e & st' & post & Hpre & Hpost & Hloop
             & Hfs & Htrace & Hra)]; rewrite <-Hr in *.
    + rewrite Hnew, (quiet_fetched (tr ++ new)) by by apply quiet_app.
      split; [apply sublist_nil_l|]. split; [by intros q ?%elem_of_nil|].
      intros Hg Hsz _. fold L in Hwhy. destruct Hwhy as [?|[HL|?]]; try congruence.
      rewrite HL. by intros q k ?%elem_of_nil.
    + apply loop_fetches in Hloop as (_ & new & Hnew & Hsub & Hnot & Hcov).
      simpl in *.
      assert (Hfe : fetched (out_trace r) = fetched new).
      { rewrite Htrace, Hnew, !fetched_app.
        rewrite (quiet_fetched tr), (quiet_fetched pre), (quiet_fetched post) by done.
        by rewrite app_nil_r. }
      rewrite Hfe. split; [done|]. split; [done|].
      intros _ _ Hnone. apply Hcov.
      rewrite Hra in Hnone. by destruct e.
Qed.

(** ** What the existing file contributes *)

Lemma file_features_makedirs (td pth : string) (f f1 : gmap string node) :
  makedirs td f = inr f1 → file_features f1 pth = file_features f pth.
Proof.
  intros (_ & _ & Hfiles)%makedirs_spec. unfold file_features.
  destruct (f1 !! pth) as [[|c]|] eqn:H1.
  - destruct (f !! pth) as [[|c']|] eqn:H0; try done.
    apply Hfiles in H0. congruence.
  - apply Hfiles in H1. by rewrite H1.
  - destruct (f !! pth) as [[|c']|] eqn:H0; try done.
    apply Hfiles in H0. congruence.
Qed.

Lemma load_document_features (data : json) (l : locals) (xs0 : list json) :
  load_document data = inr l → all_features l = JList xs0 →
  output_features data `prefix_of` xs0.
Proof.
  unfold load_document. intros H Hxs.
  destruct data as [| | | | |dd]; try done. simpl in H.
  destruct (py_get "village_info" (JDict ∅) (default (JDict ∅) (dd !! "metadata")))
    as [|vi]; [done|]. simpl in H.
  destruct (py_iter (default (JList []) (dd !! "features"))) as [|items];
    [done|]. simpl in H.
  destruct (scan_features items ∅) as [|s]; [done|]. simpl in H.
  injection H as <-. simpl in Hxs. unfold output_features.
  destruct (dd !! "features") as [x|]; simpl in Hxs.
  - by rewrite Hxs.
  - apply prefix_nil.
Qed.

Lemma loaded_file_features (td pth : string) (f f1 : gmap string node)
    (l : locals) (xs0 : list json) :
  makedirs td f = inr f1 →
  loaded (read_existing false f1 pth) = Some l →
  all_features l = JList xs0 →
  file_features f pth `prefix_of` xs0.
Proof.
  intros Hmk Hl Hxs. rewrite <-(file_features_makedirs td pth f f1 Hmk).
  unfold file_features, read_existing in *.
  destruct (f1 !! pth) as [[|[data| |]]|]; try apply prefix_nil.
  destruct (load_document data) as [|l'] eqn:Hd; [done|].
  simpl in Hl. injection Hl as ->. by eapply load_document_features.
Qed.

Lemma plot_numbers_prefix (xs ys : list json) (x : json) :
  xs `prefix_of` ys → x ∈ plot_numbers xs → x ∈ plot_numbers ys.
Proof.
  intros [zs ->]. unfold plot_numbers. rewrite omap_app, elem_of_app. by left.
Qed.

(** ** Monotonic persistence *)



(** ** Resuming *)




(** ** A write that fails *)




(** ** Exceptions *)

(** C5 at an existing file that is JSON but no VillageOutput: the text
    [[]] parses to a list, [data.get] raises [AttributeError], which line
    125 does not catch, and the run ends with that exception right after
    [os.makedirs].  Likewise an answer of the service for a plot that is a
    non-empty array raises [AttributeError] at [plot_data.get] in line 156,
    outside any [try]. *)
Theorem existing_array_file_raises :
  (out_raised (ex_run (ex_remote ex_both ex_detail always_ok) ex_gis ex_fs_array)
     = Some AttributeError ∧
   out_trace (ex_run (ex_remote ex_both ex_detail always_ok) ex_gis ex_fs_array)
     = [Makedirs "data_Pune/Haveli"]) ∧
  out_raised (ex_run (ex_remote ex_both ex_array_answer always_ok) ex_gis ex_empty)
    = Some AttributeError.
Proof. repeat split; vm_compute; reflexivity. Qed.

(** What line 125 does catch: a directory in the place of the file, a read
    that the operating system refuses, a file that is no JSON text.  The
    warning is printed and the run goes on from an empty feature list. *)
Lemma unreadable_file_starts_fresh (self : BhuNakshaExtractor) (svc : service)
    (gis_code : option string) (d t v out : string) (f f1 : gmap string node) :
  makedirs (taluk_dir t out) f = inr f1 →
  f1 !! output_path t v out = Some Dir
  ∨ (∃ text, f1 !! output_path t v out = Some (File text) ∧
             (read_refused svc = true ∨ text = TextNotJson)) →
  extract_and_save_village_data self svc gis_code d t v out f
    = extract_from self svc gis_code d t v out fresh f1
        [Makedirs (taluk_dir t out); Print (WarnUnreadable v)].
Proof.
  intros Hmk Hf. unfold extract_and_save_village_data, read_existing.
  rewrite Hmk. destruct Hf as [->|(text & -> & [->| ->])]; try done.
  by destruct (read_refused svc).
Qed.

(** ** The metadata counters *)



(** C8 on a retry: plot 102 is in the file, plot 101 failed in the first
    run; the second run fetches plot 101 in the first round and writes
    [failed_plots = 1 - 2 = -1]. *)
Theorem failed_plots_negative_on_retry :
  fetched (out_trace ex_retry) = [JStr "101"] ∧
  out_raised ex_retry = None ∧
  file_counter "successful_plots" (out_fs ex_retry) ex_path = Some (JInt 2) ∧
  file_counter "failed_plots" (out_fs ex_retry) ex_path = Some (JInt (-1)).
Proof. repeat split; vm_compute; reflexivity. Qed.

(** X2, the scenario of the specification: plot 101 is in the file, the run
    fetches plot 102 only and ends with 2 successful and 0 failed plots. *)
Lemma resume_scenario :
  plot_numbers (file_features (ex_fs_after "101") ex_path) = [JStr "101"] ∧
  fetched (out_trace ex_resume) = [JStr "102"] ∧
  out_raised ex_resume = None ∧
  plot_numbers (file_features (out_fs ex_resume) ex_path)
    = [JStr "101"; JStr "102"] ∧
  file_counter "successful_plots" (out_fs ex_resume) ex_path = Some (JInt 2) ∧
  file_counter "failed_plots" (out_fs ex_resume) ex_path = Some (JInt 0).
Proof. repeat split; vm_compute; reflexivity. Qed.

(** ** The frame of a run *)



(** * Further properties of the extractor *)

(** ** The shape of a run *)

(** What [extract_from] does, path by path. *)
Lemma extract_from_shape (self : BhuNakshaExtractor) (svc : service)
    (gis_code : option string) (d t v out : string) (l : locals)
    (f : gmap string node) (tr : list event) :
  let r := extract_from self svc gis_code d t v out l f tr in
  let g := code_str gis_code in
  let L := get_plot_list svc g in
  let info := if negb (truthy (village_info l))
              then get_village_info svc g else village_info l in
  let asked := if negb (truthy (village_info l))
               then [GetVillageInfo g] else [] in
  (code_truthy gis_code = false ∧
   r = {| out_fs := f; out_trace := tr ++ [Print (SkipInvalidGis v)];
          out_raised := None |}) ∨
  (code_truthy gis_code = true ∧ L = [] ∧
   r = {| out_fs := f;
          out_trace := tr ++ asked ++ [GetPlotList g; Print (NoPlotList g)];
          out_raised := None |}) ∨
  (code_truthy gis_code = true ∧ L ≠ [] ∧
   size (existing_plot_nos l) = List.length L ∧
   r = {| out_fs := f;
          out_trace := tr ++ asked
                       ++ [GetPlotList g; Print (TotalPlots v (List.length L));
                           Print (AllScraped (List.length L) v)];
          out_raised := None |}) ∨
  (code_truthy gis_code = true ∧ L ≠ [] ∧
   size (existing_plot_nos l) ≠ List.length L ∧
   ∃ e st',
     plot_loop self svc gis_code d t v out info (List.length L) 0 L
       {| ls_features := all_features l;
          ls_existing := existing_plot_nos l;
          ls_fs := f;
          ls_trace := tr ++ asked
                      ++ [GetPlotList g; Print (TotalPlots v (List.length L))] |}
       = (e, st') ∧
     out_fs r = ls_fs st' ∧
     out_raised r = match e with
                    | Some x => Some x
                    | None =>
                        match py_len (ls_features st') with
                        | inl x => Some x
                        | inr _ => None
                        end
                    end ∧
     out_trace r = ls_trace st'
                   ++ match e, py_len (ls_features st') with
                      | None, inr n => [Print (Finished v n)]
                      | _, _ => []
                      end).
Proof.
  intros r g L info asked. subst r. unfold extract_from.
  destruct (code_truthy gis_code) eqn:Hg; simpl; [|by left].
  right. fold g L.
  assert (Hit : (if negb (truthy (village_info l))
                 then (get_village_info svc g, tr ++ [GetVillageInfo g])
                 else (village_info l, tr)) = (info, tr ++ asked)).
  { subst info asked. destruct (negb _); [done|]. by rewrite app_nil_r. }
  rewrite Hit. unfold truthy. rewrite negb_involutive.
  destruct (Nat.eqb (List.length L) 0) eqn:HL.
  { left. split; [done|]. apply Nat.eqb_eq in HL.
    split; [by destruct L|]. by rewrite <-!app_assoc. }
  right.
  assert (HL' : L ≠ []) by (by intros HL'; rewrite HL' in HL).
  destruct (Nat.eqb (size (existing_plot_nos l)) (List.length L)) eqn:Hsz.
  { left. split; [done|]. split; [done|]. apply Nat.eqb_eq in Hsz.
    split; [done|]. by rewrite <-!app_assoc. }
  right. split; [done|]. split; [done|]. split; [by apply Nat.eqb_neq|].
  rewrite <-!app_assoc. simpl.
  destruct (plot_loop _ _ _ _ _ _ _ _ _ _ L _) as [e st'] eqn:Hloop.
  exists e, st'. split; [done|].
  destruct e as [x|]; [by rewrite app_nil_r|].
  destruct (py_len (ls_features st')) as [x|n]; [by rewrite app_nil_r|done].
Qed.

(** A run that gets past [os.makedirs] and the look at the existing file is
    [extract_from] on what was loaded. *)
Lemma run_shape (self : BhuNakshaExtractor) (svc : service)
    (gis_code : option string) (d t v out : string)
    (f f1 : gmap string node) (l : locals) :
  makedirs (taluk_dir t out) f = inr f1 →
  loaded (read_existing (read_refused svc) f1 (output_path t v out)) = Some l →
  ∃ banner,
    Forall (fun e => is_print e = true) banner ∧
    extract_and_save_village_data self svc gis_code d t v out f
      = extract_from self svc gis_code d t v out l f1
          (Makedirs (taluk_dir t out) :: banner).
Proof.
  intros Hmk Hl. unfold extract_and_save_village_data. rewrite Hmk.
  destruct (read_existing _ f1 _) as [| |l'|e]; simpl in Hl; simplify_eq.
  - exists []. by split.
  - exists [Print (WarnUnreadable v)]. split; [by repeat constructor|done].
  - exists [Print (FoundExisting v (size (existing_plot_nos l)))].
    split; [by repeat constructor|done].
Qed.

Lemma sleeps_app (l1 l2 : list event) : sleeps (l1 ++ l2) = sleeps l1 + sleeps l2.
Proof. unfold sleeps. by rewrite omap_app, length_app. Qed.

Lemma info_requests_app (l1 l2 : list event) :
  info_requests (l1 ++ l2) = info_requests l1 ++ info_requests l2.
Proof. apply omap_app. Qed.

Lemma prints_calm (trace : list event) :
  Forall (fun e => is_print e = true) trace →
  sleeps trace = 0 ∧ fetched trace = [] ∧ info_requests trace = [] ∧
  no_write trace.
Proof.
  induction 1 as [|e tr He _ (IH1 & IH2 & IH3 & IH4)].
  { split; [done|]. split; [done|]. split; [done|]. constructor. }
  destruct e; try done. unfold sleeps in *. simpl.
  split; [done|]. split; [done|]. split; [done|]. by constructor.
Qed.

Lemma round_events_no_info (trace : list event) :
  Forall (fun e => is_round_event e = true) trace → info_requests trace = [].
Proof. induction 1 as [|e tr He _ IH]; [done|]. by destruct e. Qed.

(** ** The pace of the plot loop *)

Section Pace.
Variable self : BhuNakshaExtractor.
Variable svc : service.
Variable gis_code : option string.
Variables d t v out : string.
Variable info : json.
Variable total : nat.

Local Abbreviation loop := (plot_loop self svc gis_code d t v out info total).
Local Abbreviation rnd := (round self svc gis_code d t v out info total).

Lemma round_pace i p st e st1 :
  rnd i p st e st1 →
  ∃ new, ls_trace st1 = ls_trace st ++ new ∧
    Forall (fun x => is_round_event x = true) new ∧
    sleeps new ≤ List.length (fetched new) ∧
    (e = None → sleeps new = List.length (fetched new)).
Proof.
  destruct 1 as [Hk|k Hk Hin|k e Hk Hin Hf|k Hk Hin Hf|k ft Hk Hin Hf Hx
                 |k ft xs ok f' Hk Hin Hf Hx Hw]; simpl.
  - exists []. rewrite app_nil_r. by repeat split.
  - exists []. rewrite app_nil_r. by repeat split.
  - eexists. split; [done|]. split; [by repeat constructor|].
    split; [by vm_compute; lia|done].
  - eexists. split; [done|]. split; [by repeat constructor|]. by split.
  - eexists. split; [done|]. split; [by repeat constructor|].
    split; [by vm_compute; lia|done].
  - eexists. split; [done|]. destruct ok; (split; [by repeat constructor|]);
      by split.
Qed.

Lemma loop_pace L i st e st' :
  loop i L st = (e, st') →
  ∃ new, ls_trace st' = ls_trace st ++ new ∧
    Forall (fun x => is_round_event x = true) new ∧
    sleeps new ≤ List.length (fetched new) ∧
    (e = None → sleeps new = List.length (fetched new)).
Proof.
  revert L i st e st'.
  apply (plot_loop_rounds self svc gis_code d t v out info total
           (fun _ _ st e st' =>
              ∃ new, ls_trace st' = ls_trace st ++ new ∧
                Forall (fun x => is_round_event x = true) new ∧
                sleeps new ≤ List.length (fetched new) ∧
                (e = None → sleeps new = List.length (fetched new)))).
  - intros i st. exists []. rewrite app_nil_r. by repeat split.
  - intros i p L st e st1 Hr. by eapply round_pace.
  - intros i p L st st1 e st' (new1 & H1 & Hf1 & Hle1 & Heq1)%round_pace _
      (new2 & H2 & Hf2 & Hle2 & Heq2).
    exists (new1 ++ new2). split; [by rewrite H2, H1, app_assoc|].
    split; [by apply Forall_app|].
    rewrite sleeps_app, fetched_app, length_app. specialize (Heq1 eq_refl).
    split; [lia|]. intros He. specialize (Heq2 He). lia.
Qed.

End Pace.

(** The trace of a run that got past the look at the existing file: the
    directory, a banner, the requests for the village info and the plot
    list, then the rounds of the loop between prints. *)
Lemma run_anatomy (self : BhuNakshaExtractor) (svc : service)
    (gis_code : option string) (d t v out : string)
    (f f1 : gmap string node) (l : locals) :
  makedirs (taluk_dir t out) f = inr f1 →
  loaded (read_existing (read_refused svc) f1 (output_path t v out)) = Some l →
  let r := extract_and_save_village_data self svc gis_code d t v out f in
  let g := code_str gis_code in
  let asked := if code_truthy gis_code && negb (truthy (village_info l))
               then [GetVillageInfo g] else [] in
  let lists := if code_truthy gis_code then [GetPlotList g] else [] in
  ∃ banner mid new post,
    out_trace r
      = [Makedirs (taluk_dir t out)] ++ banner ++ asked ++ lists ++ mid
        ++ new ++ post ∧
    Forall (fun e => is_print e = true) banner ∧
    Forall (fun e => is_print e = true) mid ∧
    Forall (fun e => is_print e = true) post ∧
    Forall (fun e => is_round_event e = true) new ∧
    sleeps new ≤ List.length (fetched new) ∧
    (out_raised r = None → sleeps new = List.length (fetched new)).
Proof.
  intros Hmk Hl r g asked lists. subst r.
  destruct (run_shape self svc gis_code d t v out f f1 l Hmk Hl)
    as (banner & Hb & ->).
  exists banner.
  destruct (extract_from_shape self svc gis_code d t v out l f1
              (Makedirs (taluk_dir t out) :: banner))
    as [(Hg & ->)|[(Hg & _ & ->)|[(Hg & _ & _ & ->)
       |(Hg & _ & _ & e & st' & Hloop & _ & Hra & ->)]]];
    subst asked lists; rewrite Hg; simpl.
  - exists [], [], [Print (SkipInvalidGis v)].
    split; [done|]. by repeat split; repeat constructor.
  - exists [], [], [Print (NoPlotList g)].
    split; [done|]. by repeat split; repeat constructor.
  - eexists [Print (TotalPlots v _)], [], [Print (AllScraped _ v)].
    split; [reflexivity|]. by repeat split; repeat constructor.
  - apply loop_pace in Hloop as (new & Hnew & Hev & Hle & Heq). simpl in Hnew.
    eexists [Print (TotalPlots v _)], new, _.
    split; [rewrite Hnew; simpl; rewrite <-!app_assoc; reflexivity|].
    split; [done|]. split; [by repeat constructor|].
    split; [|split; [done|split; [done|]]].
    + destruct e; [constructor|].
      destruct (py_len _); by repeat constructor.
    + intros Hnone. apply Heq. rewrite Hra in Hnone. by destruct e.
Qed.

(** X4: the pause of lines 196-197 is taken once for every plot whose detail
    was asked for, never for a plot that was skipped: in a run that returns
    the number of pauses is the number of calls for plot detail, and in a
    run that raises it is at most that number. *)
Theorem one_pause_per_fetch (self : BhuNakshaExtractor) (svc : service)
    (gis_code : option string) (d t v out : string) (f : gmap string node) :
  let r := extract_and_save_village_data self svc gis_code d t v out f in
  sleeps (out_trace r) ≤ List.length (fetched (out_trace r)) ∧
  (out_raised r = None →
   sleeps (out_trace r) = List.length (fetched (out_trace r))).
Proof.
  intros r. subst r.
  destruct (makedirs (taluk_dir t out) f) as [e|f1] eqn:Hmk.
  { unfold extract_and_save_village_data. rewrite Hmk. by split. }
  destruct (loaded (read_existing (read_refused svc) f1 (output_path t v out)))
    as [l|] eqn:Hl.
  2:{ unfold extract_and_save_village_data. rewrite Hmk.
      by destruct (read_existing _ f1 _). }
  destruct (run_anatomy self svc gis_code d t v out f f1 l Hmk Hl)
    as (banner & mid & new & post & -> & Hb & Hm & Hp & _ & Hle & Heq).
  destruct (prints_calm _ Hb) as (Hb1 & Hb2 & _).
  destruct (prints_calm _ Hm) as (Hm1 & Hm2 & _).
  destruct (prints_calm _ Hp) as (Hp1 & Hp2 & _).
  rewrite !sleeps_app, !fetched_app, Hb1, Hb2, Hm1, Hm2, Hp1, Hp2.
  assert (Ha : ∀ b : bool, sleeps (if b then [GetVillageInfo (code_str gis_code)]
                                   else []) = 0
               ∧ fetched (if b then [GetVillageInfo (code_str gis_code)]
                          else []) = []) by (by intros []).
  assert (Hli : ∀ b : bool, sleeps (if b then [GetPlotList (code_str gis_code)]
                                    else []) = 0
                ∧ fetched (if b then [GetPlotList (code_str gis_code)]
                           else []) = []) by (by intros []).
  destruct (Ha (code_truthy gis_code && negb (truthy (village_info l))))
    as [-> ->].
  destruct (Hli (code_truthy gis_code)) as [-> ->].
  rewrite app_nil_r. simpl. split; [lia|]. intros H. rewrite Heq by done. lia.
Qed.

(** ** The village info *)

(** Every write of a run holds the village info the run settled on, the
    loaded features and the features yielded so far. *)
Lemma run_written (self : BhuNakshaExtractor) (svc : service)
    (gis_code : option string) (d t v out : string)
    (f f1 : gmap string node) (l : locals)
    (a b : list event) (pth : string) (c : json) (ok : bool) :
  makedirs (taluk_dir t out) f = inr f1 →
  loaded (read_existing (read_refused svc) f1 (output_path t v out)) = Some l →
  let r := extract_and_save_village_data self svc gis_code d t v out f in
  let g := code_str gis_code in
  let info := if truthy (village_info l)
              then village_info l else get_village_info svc g in
  out_trace r = a ++ WriteFile pth c ok :: b →
  ∃ xs0 j,
    all_features l = JList xs0 ∧
    c = make_output self gis_code d t v info
          (List.length (get_plot_list svc g)) j (xs0 ++ yielded svc d t v a).
Proof.
  intros Hmk Hl r g info Heq. subst r g.
  destruct (run_shape self svc gis_code d t v out f f1 l Hmk Hl)
    as (banner & Hb & Hrun).
  rewrite Hrun in Heq.
  assert (Hbq : quiet (Makedirs (taluk_dir t out) :: banner)).
  { constructor; [done|]. eapply Forall_impl; [|exact Hb].
    by intros [] ?. }
  assert (Hin : (if negb (truthy (village_info l))
                 then get_village_info svc (code_str gis_code) else village_info l) = info).
  { subst info. by destruct (truthy _). }
  assert (Haq : quiet (if negb (truthy (village_info l))
                       then [GetVillageInfo (code_str gis_code)] else [])).
  { destruct (negb _); by repeat constructor. }
  destruct (extract_from_shape self svc gis_code d t v out l f1
              (Makedirs (taluk_dir t out) :: banner))
    as [(Hg & Hr)|[(Hg & _ & Hr)|[(Hg & _ & _ & Hr)
       |(Hg & _ & _ & e & st' & Hloop & _ & _ & Hr)]]];
    rewrite Hr in Heq; clear Hr; simpl in Heq.
  - exfalso. eapply (quiet_split a b pth c ok). rewrite <-Heq.
    apply (quiet_app (_ :: _)); [done|by repeat constructor].
  - exfalso. eapply (quiet_split a b pth c ok). rewrite <-Heq.
    apply (quiet_app (_ :: _)); [done|].
    apply quiet_app; [done|by repeat constructor].
  - exfalso. eapply (quiet_split a b pth c ok). rewrite <-Heq.
    apply (quiet_app (_ :: _)); [done|].
    apply quiet_app; [done|by repeat constructor].
  - rewrite Hin in Hloop.
    set (tr0 := (Makedirs (taluk_dir t out) :: banner) ++ _) in Hloop.
    assert (Htr0 : quiet tr0).
    { apply quiet_app; [done|]. apply quiet_app; [done|by repeat constructor]. }
    apply event_in_app in Heq as [(b' & Heq & _)|(a' & Heq & _)].
    2:{ destruct e; [by destruct a'|].
        destruct (py_len _); [by destruct a'|].
        destruct a' as [|? [|]]; discriminate. }
    assert (Hno : (∀ xs, all_features l ≠ JList xs) → False).
    { intros Hno.
      assert (Hinv : no_list_inv st').
      { eapply loop_no_list_inv; [exact Hloop|].
        split; [done|by apply quiet_no_write]. }
      destruct Hinv as [_ Hnw]. rewrite Heq in Hnw.
      by apply no_write_split in Hnw. }
    destruct (all_features l) as [| | | |xs0|] eqn:Hxs;
      try (exfalso; apply Hno; intros xs; discriminate).
    eapply (loop_features _ _ _ _ _ _ _ _ _ xs0) in Hloop as [_ Hw].
    + destruct (Hw _ _ _ _ _ Heq) as (_ & a' & j & q & -> & ->).
      by exists xs0, j.
    + split.
      * cbn [ls_features ls_trace].
        by rewrite (quiet_yielded svc d t v tr0), app_nil_r.
      * by apply writes_ok_no_write, quiet_no_write.
Qed.

(** X5: the village info of an existing file is reused.  The run asks the
    service for the village info at most once, and only when the identifier
    is valid and the file it resumed from held none (line 134); the plot
    loop never asks.  Every document the run writes carries under
    [metadata.village_info] the info of the file, or else the answer of the
    service. *)
Theorem village_info_reuse (self : BhuNakshaExtractor) (svc : service)
    (gis_code : option string) (d t v out : string)
    (f f1 : gmap string node) (l : locals) :
  makedirs (taluk_dir t out) f = inr f1 →
  loaded (read_existing (read_refused svc) f1 (output_path t v out)) = Some l →
  let r := extract_and_save_village_data self svc gis_code d t v out f in
  let g := code_str gis_code in
  info_requests (out_trace r)
    = (if code_truthy gis_code && negb (truthy (village_info l))
       then [g] else []) ∧
  ∀ a pth c ok b,
    out_trace r = a ++ WriteFile pth c ok :: b →
    metadata_counter "village_info" c
      = Some (if truthy (village_info l)
              then village_info l else get_village_info svc g).
Proof.
  intros Hmk Hl r g. split.
  - destruct (run_anatomy self svc gis_code d t v out f f1 l Hmk Hl)
      as (banner & mid & new & post & Htr & Hb & Hm & Hp & Hn & _).
    fold r in Htr. rewrite Htr.
    destruct (prints_calm _ Hb) as (_ & _ & Hb3 & _).
    destruct (prints_calm _ Hm) as (_ & _ & Hm3 & _).
    destruct (prints_calm _ Hp) as (_ & _ & Hp3 & _).
    rewrite !info_requests_app, Hb3, Hm3, Hp3, (round_events_no_info _ Hn).
    fold g. destruct (code_truthy gis_code); simpl; [|done].
    by destruct (negb _).
  - intros a pth c ok b Heq.
    destruct (run_written self svc gis_code d t v out f f1 l _ _ _ _ _ Hmk Hl Heq)
      as (xs0 & j & _ & ->).
    reflexivity.
Qed.

Lemma village_info_reuse_witness :
  info_requests (out_trace ex_resume) = [].
Proof.
  unfold ex_resume, ex_run.
  rewrite (proj1 (village_info_reuse ex_self
                    (ex_remote ex_both ex_detail always_ok) ex_gis
                    "Pune" "Haveli" "Wadgaon" "data_Pune"
                    (ex_fs_after "101") (ex_fs_after "101")
                    (ex_locals (ex_fs_after "101"))
                    ltac:(vm_compute; reflexivity)
                    ltac:(vm_compute; reflexivity))).
  vm_compute. reflexivity.
Defined.

(** ** A service that gives no plot detail *)

Lemma loop_outage (self : BhuNakshaExtractor) (svc : service)
    (gis_code : option string) (d t v out : string) (info : json)
    (total : nat) (L : list json) :
  (∀ i q, plot_feature svc d t v
            (get_plot_geometry svc i (code_str gis_code) q) = inr None) →
  Forall (fun q => is_Some (hash_key q)) L →
  ∀ i st, ∃ new,
    plot_loop self svc gis_code d t v out info total i L st
      = (None, with_trace st (ls_trace st ++ new)) ∧
    fetched new = missing (ls_existing st) L ∧
    no_write new.
Proof.
  intros Hout. induction 1 as [|p L [k Hk] _ IH]; intros i st.
  - exists []. rewrite app_nil_r. split; [by destruct st|]. split; [done|].
    constructor.
  - unfold plot_loop. fold plot_loop. unfold plot_step. rewrite Hk.
    unfold missing. simpl. rewrite Hk. fold (missing (ls_existing st) L).
    destruct (decide (k ∈ ls_existing st)) as [Hin|Hin].
    + rewrite bool_decide_false by (by intros ?). apply IH.
    + rewrite bool_decide_true by done. rewrite Hout.
      destruct (IH (S i)
                  (with_trace
                     (with_trace st
                        (ls_trace st
                         ++ [Print (Processing p (i + 1) total);
                             GetPlotGeometry i (code_str gis_code) p]))
                     ((ls_trace st
                         ++ [Print (Processing p (i + 1) total);
                             GetPlotGeometry i (code_str gis_code) p])
                      ++ [Sleep])))
        as (new & Hloop & Hfe & Hnw).
      exists ([Print (Processing p (i + 1) total);
               GetPlotGeometry i (code_str gis_code) p; Sleep] ++ new).
      split; [|split].
      * etrans; [exact Hloop|]. f_equal.
        unfold with_trace. simpl. f_equal. by rewrite <-!app_assoc.
      * rewrite fetched_app. simpl. by rewrite Hfe.
      * apply Forall_app. split; [by repeat constructor|done].
Qed.

Lemma prints_quiet (trace : list event) :
  Forall (fun e => is_print e = true) trace → quiet trace.
Proof. intros H. eapply Forall_impl; [|exact H]. by intros [] ?. Qed.

(** X6: a service that gives no plot detail costs nothing but time.  When
    no call for plot detail leads to a feature (the call failed, the answer
    has no geometry, or the geometry does not convert), a run that reaches
    the plot loop asks for every plot of the list that is not in the set
    loaded from the file, in the order of the list and as often as it is
    listed, writes nothing, leaves the file system as [os.makedirs] left it
    and returns. *)
Theorem outage_writes_nothing (self : BhuNakshaExtractor) (svc : service)
    (gis_code : option string) (d t v out : string)
    (f f1 : gmap string node) (l : locals) :
  makedirs (taluk_dir t out) f = inr f1 →
  loaded (read_existing (read_refused svc) f1 (output_path t v out)) = Some l →
  code_truthy gis_code = true →
  size (existing_plot_nos l)
    ≠ List.length (get_plot_list svc (code_str gis_code)) →
  Forall (fun q => is_Some (hash_key q))
    (get_plot_list svc (code_str gis_code)) →
  (∀ i q, plot_feature svc d t v
            (get_plot_geometry svc i (code_str gis_code) q) = inr None) →
  let r := extract_and_save_village_data self svc gis_code d t v out f in
  out_raised r = None ∧
  out_fs r = f1 ∧
  no_write (out_trace r) ∧
  fetched (out_trace r)
    = missing (existing_plot_nos l) (get_plot_list svc (code_str gis_code)).
Proof.
  intros Hmk Hl Hg Hsz Hhash Hout r. subst r.
  destruct (run_shape self svc gis_code d t v out f f1 l Hmk Hl)
    as (banner & Hb & ->).
  assert (Hbq : quiet (Makedirs (taluk_dir t out) :: banner)).
  { constructor; [done|]. by apply prints_quiet. }
  assert (Haq : quiet (if negb (truthy (village_info l))
                       then [GetVillageInfo (code_str gis_code)] else [])).
  { destruct (negb _); by repeat constructor. }
  destruct (extract_from_shape self svc gis_code d t v out l f1
              (Makedirs (taluk_dir t out) :: banner))
    as [(Hg' & _)|[(_ & HL & Hr)|[(_ & _ & Hsz' & _)
       |(_ & _ & _ & e & st' & Hloop & Hfs & Hra & Htr)]]];
    [congruence| |done|].
  - rewrite Hr, HL. cbn [out_fs out_trace out_raised].
    assert (Hq : quiet ((Makedirs (taluk_dir t out) :: banner)
                        ++ (if negb (truthy (village_info l))
                            then [GetVillageInfo (code_str gis_code)] else [])
                        ++ [GetPlotList (code_str gis_code);
                            Print (NoPlotList (code_str gis_code))])).
    { apply quiet_app; [done|]. apply quiet_app; [done|by repeat constructor]. }
    split; [done|]. split; [done|].
    split; [by apply quiet_no_write|by apply quiet_fetched].
  - set (tr0 := (Makedirs (taluk_dir t out) :: banner) ++ _) in Hloop.
    assert (Htr0 : quiet tr0).
    { apply quiet_app; [done|]. apply quiet_app; [done|by repeat constructor]. }
    clearbody tr0.
    match type of Hloop with
    | plot_loop _ _ _ _ _ _ _ ?info ?total ?i ?L ?st = _ =>
        destruct (loop_outage self svc gis_code d t v out info total L
                    Hout Hhash i st) as (new & Hloop' & Hfe & Hnw)
    end.
    rewrite Hloop' in Hloop. injection Hloop as <- <-.
    cbn [with_trace ls_fs ls_trace ls_features ls_existing] in *.
    destruct (loaded_len _ _ _ _ Hl) as [n Hn]. rewrite Hn in Hra, Htr.
    rewrite Hra, Hfs, Htr. split; [done|]. split; [done|]. split.
    + apply Forall_app. split; [|by repeat constructor].
      apply Forall_app. split; [by apply quiet_no_write|done].
    + rewrite !fetched_app, (quiet_fetched tr0 Htr0), Hfe. simpl.
      by rewrite app_nil_r.
Qed.

Lemma outage_writes_nothing_witness :
  fetched (out_trace (ex_run (ex_remote ex_both ex_no_answer always_ok) ex_gis
                        (ex_fs_after "101")))
    = [JStr "102"].
Proof.
  unfold ex_run.
  rewrite (proj2 (proj2 (proj2
             (outage_writes_nothing ex_self
                (ex_remote ex_both ex_no_answer always_ok) ex_gis
                "Pune" "Haveli" "Wadgaon" "data_Pune"
                (ex_fs_after "101") (ex_fs_after "101")
                (ex_locals (ex_fs_after "101"))
                ltac:(vm_compute; reflexivity)
                ltac:(vm_compute; reflexivity)
                eq_refl
                ltac:(vm_compute; discriminate)
                ltac:(by repeat constructor)
                ltac:(reflexivity))))).
  vm_compute. reflexivity.
Defined.

(** ** What is written loads back *)

Lemma load_make_output (self : BhuNakshaExtractor) (gis_code : option string)
    (d t v : string) (info : json) (total j : nat) (feats : list json) :
  load_document (make_output self gis_code d t v info total j feats)
  = s ← scan_features feats ∅;
    inr {| all_features := JList feats; existing_plot_nos := s;
           village_info := info |}.
Proof. reflexivity. Qed.

Lemma scan_features_app (xs ys : list json) (s : gset hkey) :
  scan_features (xs ++ ys) s = s' ← scan_features xs s; scan_features ys s'.
Proof.
  revert s. induction xs as [|x xs IH]; intros s; [done|]. simpl.
  destruct (scan_feature x s) as [e|s1]; [done|]. apply IH.
Qed.

(** A feature with a [plotno] among its properties gives that to the set. *)
Lemma scan_feature_plot_number (ft q : json) (s : gset hkey) :
  plot_number ft = Some q → scan_feature ft s = set_add q s.
Proof.
  unfold plot_number, feature_property, scan_feature.
  destruct ft as [| | | | |fd]; try done. simpl.
  destruct (fd !! "properties") as [[| | | | |props]|]; try done. simpl.
  intros Hq. rewrite Hq. rewrite bool_decide_true by eauto. done.
Qed.

(** The set that line 123 builds holds the [plotno] properties. *)
Lemma scan_feature_spec (ft : json) (s0 s : gset hkey) :
  scan_feature ft s0 = inr s →
  s = list_to_set (omap hash_key (option_list (plot_number ft))) ∪ s0.
Proof.
  unfold plot_number, feature_property, scan_feature.
  destruct ft as [| | | | |fd]; try done. simpl.
  destruct (fd !! "properties") as [[| | | |xs|props]|]; simpl; try done.
  - destruct (is_substring _ _); simpl; [done|]. intros [= <-]. set_solver.
  - destruct (existsb _ _); simpl; [done|]. intros [= <-]. set_solver.
  - destruct (props !! "plotno") as [x|] eqn:Hx.
    + rewrite bool_decide_true by eauto. simpl. unfold set_add.
      destruct (hash_key x) as [k|]; [|done]. intros [= <-]. simpl.
      set_solver.
    + rewrite bool_decide_false by (by intros [? ?]). intros [= <-].
      set_solver.
  - rewrite lookup_empty. rewrite bool_decide_false by (by intros [? ?]).
    intros [= <-]. set_solver.
Qed.

Lemma scan_features_spec (feats : list json) (s0 s : gset hkey) :
  scan_features feats s0 = inr s →
  s = list_to_set (omap hash_key (plot_numbers feats)) ∪ s0.
Proof.
  revert s0. induction feats as [|ft feats IH]; intros s0; simpl.
  - intros [= <-]. set_solver.
  - destruct (scan_feature ft s0) as [e|s1] eqn:H1; [done|]. simpl.
    intros ->%IH. apply scan_feature_spec in H1 as ->.
    unfold plot_numbers. simpl.
    destruct (plot_number ft) as [q|]; simpl; [|set_solver].
    destruct (hash_key q); simpl; set_solver.
Qed.

(** What loading found is what scanning the loaded features gives. *)
Lemma loaded_scan (refused : bool) (f : gmap string node) (pth : string)
    (l : locals) (xs : list json) :
  loaded (read_existing refused f pth) = Some l →
  all_features l = JList xs →
  scan_features xs ∅ = inr (existing_plot_nos l).
Proof.
  unfold read_existing.
  destruct (f !! pth) as [[|[data| |]]|], refused; simpl;
    try (intros [= <-] [= <-]; done); try done.
  destruct (load_document data) as [|l'] eqn:Hl; simpl; [done|].
  intros [= <-]. unfold load_document in Hl.
  destruct (py_get "features" (JList []) data) as [|features]; [done|].
  simpl in Hl.
  destruct (py_get "metadata" (JDict ∅) data) as [|metadata]; [done|].
  simpl in Hl.
  destruct (py_get "village_info" (JDict ∅) metadata) as [|vi]; [done|].
  simpl in Hl.
  destruct (py_iter features) as [|items] eqn:Hi; [done|]. simpl in Hl.
  destruct (scan_features items ∅) as [|s] eqn:Hs; [done|]. simpl in Hl.
  injection Hl as <-. simpl. intros ->. simpl in Hi. by injection Hi as <-.
Qed.

(** X7: what line 191 writes, lines 116-123 load back.  After a write that
    succeeded, reading the output file gives the feature list that was
    written, the village info that was written and, as the set of plots to
    skip, the hashed [plotno] properties of the features written: the set
    is rebuilt from what the service answered, not from the plot numbers
    of the plot list. *)
Theorem written_file_loads (self : BhuNakshaExtractor) (svc : service)
    (gis_code : option string) (d t v out : string) (info : json)
    (total i : nat) (k : hkey) (feats : list json) (st : loop_state)
    (s : gset hkey) :
  write_result_at svc i = WriteOk →
  ls_fs st !! output_path t v out ≠ Some Dir →
  scan_features feats ∅ = inr s →
  let st1 := persist self svc gis_code d t v out info total i k feats st in
  read_existing false (ls_fs st1) (output_path t v out)
    = ReadLoaded {| all_features := JList feats; existing_plot_nos := s;
                    village_info := info |} ∧
  s = list_to_set (omap hash_key (plot_numbers feats)).
Proof.
  intros Hw Hd Hs st1. split.
  - subst st1. unfold persist, write_file. rewrite Hw.
    destruct (ls_fs st !! output_path t v out) as [[|c]|] eqn:Hp; [done|..];
      cbn [ls_fs]; unfold read_existing; rewrite lookup_insert_eq;
      by rewrite load_make_output, Hs.
  - apply scan_features_spec in Hs as ->. set_solver.
Qed.

Lemma written_file_loads_witness :
  read_existing false
    (ls_fs (persist ex_self (ex_remote ex_both ex_detail always_ok) ex_gis
              "Pune" "Haveli" "Wadgaon" "data_Pune" JNull 2 1 (HStr "102")
              (file_features ex_fs_done ex_path) ex_start))
    (output_path "Haveli" "Wadgaon" "data_Pune")
  = ReadLoaded {| all_features := JList (file_features ex_fs_done ex_path);
                  existing_plot_nos := {[HStr "101"; HStr "102"]};
                  village_info := JNull |}.
Proof.
  exact (proj1 (written_file_loads ex_self
                  (ex_remote ex_both ex_detail always_ok) ex_gis
                  "Pune" "Haveli" "Wadgaon" "data_Pune" JNull 2 1 (HStr "102")
                  (file_features ex_fs_done ex_path) ex_start
                  {[HStr "101"; HStr "102"]}
                  ltac:(reflexivity)
                  ltac:(vm_compute; discriminate)
                  ltac:(vm_compute; reflexivity))).
Defined.

(** ** Running again *)

Lemma mkdir_all_present (ps : list string) (f : gmap string node) :
  (∀ q, q ∈ ps → f !! q = Some Dir) → mkdir_all ps f = inr f.
Proof.
  induction ps as [|p ps IH]; intros H; [done|]. simpl.
  unfold mkdir_exist_ok. rewrite (H p) by by left. simpl.
  apply IH. intros q Hq. apply H. by right.
Qed.

(** [os.makedirs] does nothing where its directories are there already. *)
Lemma makedirs_again (p : string) (f f1 f2 : gmap string node) :
  makedirs p f = inr f1 →
  (∀ q, f1 !! q = Some Dir → f2 !! q = Some Dir) →
  makedirs p f2 = inr f2.
Proof.
  unfold makedirs. destruct (String.eqb p ""); [done|]. intros H Hd.
  apply mkdir_all_present. intros q Hq. apply Hd.
  by apply (mkdir_all_spec _ _ _ H q).
Qed.

Section Rerun.
Variable self : BhuNakshaExtractor.
Variable svc : service.
Variable gis_code : option string.
Variables d t v out : string.
Variable info : json.
Variable total : nat.
Hypothesis Hwrites : ∀ i, write_result_at svc i = WriteOk.

Local Abbreviation loop := (plot_loop self svc gis_code d t v out info total).
Local Abbreviation rnd := (round self svc gis_code d t v out info total).

Lemma round_sync i p st e st1 :
  rnd i p st e st1 → e = None →
  (∃ ft, yield svc d t v i (code_str gis_code) p = Some ft ∧
         plot_number ft = Some p) →
  in_sync t v out st →
  in_sync t v out st1 ∧ ∃ k, hash_key p = Some k ∧ k ∈ ls_existing st1.
Proof.
  intros Hr He (ft0 & Hy & Hp) [Hd (l & Hl & Hfe & Hex)].
  destruct Hr as [Hk|k Hk Hin|k e Hk Hin Hf|k Hk Hin Hf|k ft Hk Hin Hf Hx
                 |k ft xs ok f' Hk Hin Hf Hx Hw]; try done.
  - split; [|by eauto]. split; [done|]. by exists l.
  - unfold yield in Hy. by rewrite Hf in Hy.
  - unfold yield in Hy. rewrite Hf in Hy. injection Hy as ->.
    unfold write_file in Hw. rewrite Hwrites in Hw.
    assert (ok = true ∧
            f' = <[output_path t v out :=
                     File (TextJson (make_output self gis_code d t v info total
                                       i (xs ++ [ft0])))]> (ls_fs st))
      as [-> ->].
    { destruct (ls_fs st !! output_path t v out) as [[|c]|]; by simplify_eq. }
    cbn [ls_fs ls_features ls_existing]. split; [|exists k; set_solver].
    split; cbn [ls_fs ls_features ls_existing].
    + by rewrite lookup_insert_eq.
    + rewrite Hx in Hfe.
      pose proof (loaded_scan _ _ _ _ _ Hl Hfe) as Hs. rewrite Hex in Hs.
      unfold read_existing. rewrite lookup_insert_eq, load_make_output.
      rewrite scan_features_app, Hs. simpl.
      rewrite (scan_feature_plot_number _ _ _ Hp). unfold set_add.
      rewrite Hk. simpl. by eexists.
Qed.

Lemma loop_sync L i st e st' :
  loop i L st = (e, st') → e = None →
  (∀ j q, q ∈ L →
     ∃ ft, yield svc d t v j (code_str gis_code) q = Some ft ∧
           plot_number ft = Some q) →
  in_sync t v out st →
  in_sync t v out st' ∧
  ∀ q, q ∈ L → ∃ k, hash_key q = Some k ∧ k ∈ ls_existing st'.
Proof.
  revert L i st e st'.
  apply (plot_loop_rounds self svc gis_code d t v out info total
           (fun i L st e st' =>
              e = None →
              (∀ j q, q ∈ L →
                 ∃ ft, yield svc d t v j (code_str gis_code) q = Some ft ∧
                       plot_number ft = Some q) →
              in_sync t v out st →
              in_sync t v out st' ∧
              ∀ q, q ∈ L → ∃ k, hash_key q = Some k ∧ k ∈ ls_existing st')).
  - intros i st _ _ Hs. split; [done|]. by intros q ?%elem_of_nil.
  - done.
  - intros i p L st st1 e st' Hr Hloop IH He Hecho Hs.
    destruct (round_sync _ _ _ _ _ Hr eq_refl (Hecho i p ltac:(by left)) Hs)
      as (Hs1 & k & Hk & Hin).
    destruct (IH He (fun j q Hq => Hecho j q ltac:(by right)) Hs1)
      as (Hs' & Hall).
    split; [done|]. intros q [->|Hq]%elem_of_cons; [|by apply Hall].
    exists k. split; [done|].
    apply loop_fetches in Hloop as (Hsub & _). by apply Hsub.
Qed.

End Rerun.

(** The look at the existing file when the read is not refused. *)
Lemma quiet_prefix (td g : string) (banner : list event) (b : bool)
    (rest : list event) :
  Forall (fun e => is_print e = true) banner → quiet rest →
  quiet ((Makedirs td :: banner)
         ++ (if b then [GetVillageInfo g] else []) ++ rest).
Proof.
  intros Hb Hr. apply (quiet_app (_ :: _)).
  - constructor; [done|]. by apply prints_quiet.
  - apply quiet_app; [|done]. destruct b; by repeat constructor.
Qed.

(** X8: a village that was completed is not fetched again.  When the output
    path is no directory, every write succeeds and every call for a plot of
    the list leads to a feature whose [plotno] is the plot number asked for,
    then after a run that returned the next run on what it left asks for no
    plot detail, writes nothing, leaves the file system as it is and
    returns. *)
Theorem completed_village_not_refetched (self : BhuNakshaExtractor)
    (svc : service) (gis_code : option string) (d t v out : string)
    (f f1 : gmap string node) :
  makedirs (taluk_dir t out) f = inr f1 →
  read_refused svc = false →
  f1 !! output_path t v out ≠ Some Dir →
  (∀ i, write_result_at svc i = WriteOk) →
  (∀ i q, q ∈ get_plot_list svc (code_str gis_code) →
     ∃ ft, yield svc d t v i (code_str gis_code) q = Some ft ∧
           plot_number ft = Some q) →
  out_raised (extract_and_save_village_data self svc gis_code d t v out f)
    = None →
  let r1 := extract_and_save_village_data self svc gis_code d t v out f in
  let r2 := extract_and_save_village_data self svc gis_code d t v out
              (out_fs r1) in
  fetched (out_trace r2) = [] ∧
  no_write (out_trace r2) ∧
  out_fs r2 = out_fs r1 ∧
  out_raised r2 = None.
Proof.
  intros Hmk Href Hd Hwrites Hecho Hret r1 r2. subst r1 r2.
  assert (Hquiet : ∀ (l : locals) (f2 : gmap string node) (banner : list event)
            (st0 : loop_state),
            Forall (fun e => is_print e = true) banner →
            (∃ n, py_len (all_features l) = inr n) →
            (code_truthy gis_code = true →
             size (existing_plot_nos l)
               ≠ List.length (get_plot_list svc (code_str gis_code)) →
             ∀ q, q ∈ get_plot_list svc (code_str gis_code) →
                  ∃ k, hash_key q = Some k ∧ k ∈ existing_plot_nos l) →
            let r := extract_from self svc gis_code d t v out l f2
                       (Makedirs (taluk_dir t out) :: banner) in
            fetched (out_trace r) = [] ∧ no_write (out_trace r) ∧
            out_fs r = f2 ∧ out_raised r = None).
  { intros l f2 banner _ Hb [n Hn] Hall r. subst r.
    destruct (extract_from_shape self svc gis_code d t v out l f2
                (Makedirs (taluk_dir t out) :: banner))
      as [(_ & ->)|[(_ & _ & ->)|[(_ & _ & _ & ->)
         |(Hg & _ & Hsz & e & st' & Hloop & Hfs & Hra & Htr)]]];
      cbn [out_fs out_trace out_raised].
    - assert (Hq : quiet ((Makedirs (taluk_dir t out) :: banner)
                          ++ [Print (SkipInvalidGis v)])).
      { apply (quiet_app (_ :: _)); [|by repeat constructor].
        constructor; [done|]. by apply prints_quiet. }
      split; [by apply quiet_fetched|]. split; [by apply quiet_no_write|done].
    - pose proof (quiet_prefix (taluk_dir t out) (code_str gis_code) banner
                    (negb (truthy (village_info l)))
                    [GetPlotList (code_str gis_code);
                     Print (NoPlotList (code_str gis_code))] Hb
                    ltac:(by repeat constructor)) as Hq.
      split; [by apply quiet_fetched|]. split; [by apply quiet_no_write|done].
    - pose proof (quiet_prefix (taluk_dir t out) (code_str gis_code) banner
                    (negb (truthy (village_info l)))
                    [GetPlotList (code_str gis_code);
                     Print (TotalPlots v
                        (List.length (get_plot_list svc (code_str gis_code))));
                     Print (AllScraped
                        (List.length (get_plot_list svc (code_str gis_code))) v)]
                    Hb ltac:(by repeat constructor)) as Hq.
      split; [by apply quiet_fetched|]. split; [by apply quiet_no_write|done].
    - rewrite loop_all_present in Hloop by (by apply Hall).
      injection Hloop as <- <-. cbn [ls_fs ls_trace ls_features] in *.
      rewrite Hn in Hra, Htr. rewrite Hfs, Hra, Htr.
      pose proof (quiet_prefix (taluk_dir t out) (code_str gis_code) banner
                    (negb (truthy (village_info l)))
                    [GetPlotList (code_str gis_code);
                     Print (TotalPlots v
                        (List.length (get_plot_list svc (code_str gis_code))))]
                    Hb ltac:(by repeat constructor)) as Hq.
      assert (Hq' : quiet (((Makedirs (taluk_dir t out) :: banner)
                     ++ (if negb (truthy (village_info l))
                         then [GetVillageInfo (code_str gis_code)] else [])
                     ++ [GetPlotList (code_str gis_code);
                         Print (TotalPlots v
                           (List.length (get_plot_list svc (code_str gis_code))))])
                     ++ [Print (Finished v n)])).
      { apply quiet_app; [done|by repeat constructor]. }
      split; [by apply quiet_fetched|]. split; [by apply quiet_no_write|done]. }
  destruct (loaded (read_existing (read_refused svc) f1 (output_path t v out)))
    as [l|] eqn:Hl.
  2:{ exfalso. revert Hret. unfold extract_and_save_village_data. rewrite Hmk.
      by destruct (read_existing _ f1 _). }
  destruct (run_shape self svc gis_code d t v out f f1 l Hmk Hl)
    as (banner & Hb & Hrun).
  rewrite Hrun in Hret |- *.
  assert (Hsame : ∀ f2 l2,
            (∀ q, f1 !! q = Some Dir → f2 !! q = Some Dir) →
            loaded (read_existing false f2 (output_path t v out)) = Some l2 →
            (code_truthy gis_code = true →
             size (existing_plot_nos l2)
               ≠ List.length (get_plot_list svc (code_str gis_code)) →
             ∀ q, q ∈ get_plot_list svc (code_str gis_code) →
                  ∃ k, hash_key q = Some k ∧ k ∈ existing_plot_nos l2) →
            let r := extract_and_save_village_data self svc gis_code d t v out
                       f2 in
            fetched (out_trace r) = [] ∧ no_write (out_trace r) ∧
            out_fs r = f2 ∧ out_raised r = None).
  { intros f2 l2 Hdirs Hl2 Hall r. subst r.
    pose proof (makedirs_again _ _ _ _ Hmk Hdirs) as Hmk2.
    pose proof Hl2 as Hl2'. rewrite <-Href in Hl2'.
    destruct (run_shape self svc gis_code d t v out f2 f2 l2 Hmk2 Hl2')
      as (banner2 & Hb2 & ->).
    apply (Hquiet l2 f2 banner2
             {| ls_features := JNull; ls_existing := ∅; ls_fs := f2;
                ls_trace := [] |}); [done| |done].
    by eapply loaded_len. }
  rewrite Href in Hl.
  destruct (extract_from_shape self svc gis_code d t v out l f1
              (Makedirs (taluk_dir t out) :: banner))
    as [(Hg & Hr)|[(Hg & HL & Hr)|[(Hg & HL & Hsz & Hr)
       |(Hg & HL & Hsz & e & st' & Hloop & Hfs & Hra & Htr)]]].
  - rewrite Hr. cbn [out_fs]. apply (Hsame f1 l); [done|done|]. congruence.
  - rewrite Hr. cbn [out_fs]. apply (Hsame f1 l); [done|done|].
    intros _ _ q Hq. rewrite HL in Hq. by apply elem_of_nil in Hq.
  - rewrite Hr. cbn [out_fs]. apply (Hsame f1 l); [done|done|]. congruence.
  - rewrite Hra in Hret. destruct e as [x|]; [done|].
    assert (Hs0 : in_sync t v out
                    {| ls_features := all_features l;
                       ls_existing := existing_plot_nos l;
                       ls_fs := f1;
                       ls_trace := (Makedirs (taluk_dir t out) :: banner)
                         ++ (if negb (truthy (village_info l))
                             then [GetVillageInfo (code_str gis_code)] else [])
                         ++ [GetPlotList (code_str gis_code);
                             Print (TotalPlots v
                               (List.length
                                  (get_plot_list svc (code_str gis_code))))] |}).
    { split; [done|]. by exists l. }
    destruct (loop_sync self svc gis_code d t v out _ _ Hwrites _ _ _ _ _
                Hloop eq_refl Hecho Hs0)
      as ((Hd' & l2 & Hl2 & _ & Hex2) & Hall).
    rewrite Hfs. apply (Hsame (ls_fs st') l2); [|done|].
    + intros q Hq.
      rewrite (loop_frame _ _ _ _ _ _ _ _ _ _ _ _ _ _ _ Hloop); [done|].
      intros ->. by rewrite Hq in Hd.
    + intros _ _. by rewrite Hex2.
Qed.

Lemma completed_village_not_refetched_witness :
  fetched (out_trace (ex_run (ex_remote ex_both ex_detail always_ok) ex_gis
                        ex_fs_done))
    = [].
Proof.
  refine (proj1 (completed_village_not_refetched ex_self
                   (ex_remote ex_both ex_detail always_ok) ex_gis
                   "Pune" "Haveli" "Wadgaon" "data_Pune" ex_empty ex_dirs
                   _ _ _ _ _ _)).
  - vm_compute. reflexivity.
  - reflexivity.
  - vm_compute. discriminate.
  - reflexivity.
  - intros i q _. eexists. split; reflexivity.
  - vm_compute. reflexivity.
Defined.

(** * Properties of the walk *)

(** ** Nothing is removed *)

Lemma keeps_refl (f : gmap string node) : keeps f f.
Proof. split; eauto. Qed.

Lemma keeps_trans (f1 f2 f3 : gmap string node) :
  keeps f1 f2 → keeps f2 f3 → keeps f1 f3.
Proof.
  intros [Hd1 Hf1] [Hd2 Hf2]. split.
  - eauto.
  - intros q c Hq. destruct (Hf1 _ _ Hq) as [c' Hc']. eauto.
Qed.

Lemma makedirs_keeps (p : string) (f f1 : gmap string node) :
  makedirs p f = inr f1 → keeps f f1.
Proof.
  intros (_ & Hq & Hfiles)%makedirs_spec. split.
  - intros q Hd. destruct (Hq q) as [->|(Hn & _)]; congruence.
  - intros q c Hc. exists c. by apply Hfiles.
Qed.

Lemma write_file_keeps (pth : string) (c : json) (r : write_result)
    (f f' : gmap string node) (ok : bool) :
  write_file pth c r f = (ok, f') → keeps f f'.
Proof.
  unfold write_file. intros H.
  destruct (f !! pth) as [[|c0]|] eqn:Hp, r; simplify_eq;
    try apply keeps_refl; split; intros q;
    try (intros Hq; destruct (decide (q = pth)) as [->|Hne];
         [congruence|by rewrite lookup_insert_ne]);
    intros c1 Hq; (destruct (decide (q = pth)) as [->|Hne];
      [rewrite lookup_insert_eq; eauto|rewrite lookup_insert_ne by done; eauto]).
Qed.

Lemma loop_keeps (self : BhuNakshaExtractor) (svc : service)
    (gis_code : option string) (d t v out : string) (info : json)
    (total : nat) L i st e st' :
  plot_loop self svc gis_code d t v out info total i L st = (e, st') →
  keeps (ls_fs st) (ls_fs st').
Proof.
  revert L i st e st'.
  apply (plot_loop_rounds self svc gis_code d t v out info total
           (fun _ _ st _ st' => keeps (ls_fs st) (ls_fs st'))).
  - intros. apply keeps_refl.
  - intros i p L st e st1 Hr. inversion Hr; subst; apply keeps_refl.
  - intros i p L st st1 e st' Hr _ IH. eapply keeps_trans; [|exact IH].
    inversion Hr; subst; try apply keeps_refl.
    simpl. by eapply write_file_keeps.
Qed.

(** A run removes nothing and changes the kind of nothing. *)
Lemma run_keeps (self : BhuNakshaExtractor) (svc : service)
    (gis_code : option string) (d t v out : string) (f : gmap string node) :
  keeps f (out_fs (extract_and_save_village_data self svc gis_code d t v out f)).
Proof.
  destruct (run_cases self svc gis_code d t v out f)
    as [(e & _ & -> & _)
       |(f1 & Hf1 & [(e & _ & -> & _)|(l & tr & _ & _ & _ & ->)])].
  - apply keeps_refl.
  - by eapply makedirs_keeps.
  - eapply keeps_trans; [by eapply makedirs_keeps|].
    destruct (extract_from_cases self svc gis_code d t v out l f1 tr)
      as [(-> & _)
         |(_ & _ & _ & info & pre & e & st' & post & _ & _ & Hloop & -> & _)];
      [apply keeps_refl|].
    apply loop_keeps in Hloop. exact Hloop.
Qed.

(** ** Reasoning on the walk *)

Section WalkInduction.
Variable self : BhuNakshaExtractor.
Variable hier : hierarchy.
Variable svc : service.
Variable all_districts : list (string * string).
Variable targets : list string.
Variable R : walk → walk → Prop.

Hypothesis R_refl : ∀ w, R w w.
Hypothesis R_trans : ∀ w1 w2 w3, R w1 w2 → R w2 w3 → R w1 w3.
Hypothesis R_say :
  ∀ w es, Forall (fun e => is_call e = false) es → R w (say w es).
Hypothesis R_raise : ∀ w e, R w (raise w e).
Hypothesis R_makedirs :
  ∀ w district_name f1,
    makedirs (district_dir_of district_name) (wk_fs w) = inr f1 →
    R w {| wk_fs := f1; wk_trace := wk_trace w; wk_raised := wk_raised w |}.
Hypothesis R_village :
  ∀ w district_name district_code map_type_code taluk_name taluk_code
      village_name village_code,
    district_name ∈ targets →
    dict_get district_name all_districts = Some district_code →
    district_code ≠ "" →
    let gis_code :=
      get_village_gis_code self map_type_code (Some district_code)
        (Some taluk_code) (Some village_code) in
    let r :=
      extract_and_save_village_data self svc gis_code district_name
        taluk_name village_name (district_dir_of district_name) (wk_fs w) in
    R w {| wk_fs := out_fs r;
           wk_trace := wk_trace w
                       ++ [Village gis_code district_name taluk_name
                             village_name (district_dir_of district_name)
                             (out_trace r)];
           wk_raised := Raised <$> out_raised r |}.

Lemma visit_villages_ind map_type_code district_code taluk_code district_name
    taluk_name (all_villages : list (string * string)) (w : walk) :
  district_name ∈ targets →
  dict_get district_name all_districts = Some district_code →
  district_code ≠ "" →
  R w (visit_villages self svc map_type_code district_code taluk_code
         district_name taluk_name (district_dir_of district_name)
         all_villages w).
Proof.
  intros Hin Hget Hne. revert w.
  induction all_villages as [|[vn vc] rest IH]; intros w; [apply R_refl|].
  simpl.
  pose proof (R_village w district_name district_code map_type_code taluk_name
                taluk_code vn vc Hin Hget Hne) as Hstep.
  cbv zeta in Hstep.
  destruct (out_raised _) as [e|]; [exact Hstep|].
  eapply R_trans; [exact Hstep|]. apply IH.
Qed.

Lemma visit_taluk_ind district_code district_name (taluk : string * string)
    (w : walk) :
  district_name ∈ targets →
  dict_get district_name all_districts = Some district_code →
  district_code ≠ "" →
  R w (visit_taluk self hier svc district_code district_name
         (district_dir_of district_name) taluk w).
Proof.
  intros Hin Hget Hne. destruct taluk as [tn tc]. unfold visit_taluk.
  set (codes := code_str (category self) +:+ _).
  set (w1 := say w _).
  assert (H1 : R w w1) by (apply R_say; by repeat constructor).
  destruct (first_list (get_hierarchy_data hier 3 codes)) as [villages|].
  2:{ eapply R_trans; [exact H1|]. apply R_say. by repeat constructor. }
  destruct (get_hierarchy_data hier 3 codes) as [[|? [|mts ?]]|];
    try (eapply R_trans; [exact H1|]; apply R_raise).
  eapply R_trans; [exact H1|]. by apply visit_villages_ind.
Qed.

Lemma visit_taluks_ind district_code district_name
    (taluks : list (string * string)) (w : walk) :
  district_name ∈ targets →
  dict_get district_name all_districts = Some district_code →
  district_code ≠ "" →
  R w (visit_taluks self hier svc district_code district_name
         (district_dir_of district_name) taluks w).
Proof.
  intros Hin Hget Hne. revert w.
  induction taluks as [|taluk rest IH]; intros w; [apply R_refl|]. simpl.
  pose proof (visit_taluk_ind district_code district_name taluk w Hin Hget Hne)
    as Hstep.
  destruct (wk_raised _); [exact Hstep|].
  eapply R_trans; [exact Hstep|]. apply IH.
Qed.

Lemma visit_district_ind district_name (w : walk) :
  district_name ∈ targets →
  R w (visit_district self hier svc all_districts district_name w).
Proof.
  intros Hin. unfold visit_district.
  destruct (dict_get district_name all_districts) as [dc|] eqn:Hget.
  2:{ apply R_say. by repeat constructor. }
  destruct (String.eqb dc "") eqn:Hdc.
  { apply R_say. by repeat constructor. }
  apply String.eqb_neq in Hdc.
  set (w1 := say w _).
  assert (H1 : R w w1) by (apply R_say; by repeat constructor).
  destruct (makedirs (district_dir_of district_name) (wk_fs w)) as [e|f1] eqn:Hmk.
  { eapply R_trans; [exact H1|]. apply R_raise. }
  set (codes := code_str (category self) +:+ _).
  set (w2 := {| wk_fs := f1; wk_trace := _; wk_raised := _ |}).
  assert (H2 : R w w2).
  { eapply R_trans; [exact H1|].
    eapply R_trans; [apply (R_makedirs w1 district_name f1 Hmk)|].
    apply (R_say {| wk_fs := f1; wk_trace := wk_trace w1;
                    wk_raised := wk_raised w1 |}
             [Say DiscoveringTaluks; GetHierarchyData 2 codes]).
    by repeat constructor. }
  destruct (first_list (get_hierarchy_data hier 2 codes)) as [taluks|].
  2:{ eapply R_trans; [exact H2|]. apply R_say. by repeat constructor. }
  eapply R_trans; [exact H2|].
  eapply R_trans; [|by apply visit_taluks_ind].
  apply R_say. by repeat constructor.
Qed.

Lemma visit_districts_ind (ts : list string) (w : walk) :
  (∀ x, x ∈ ts → x ∈ targets) →
  R w (visit_districts self hier svc all_districts ts w).
Proof.
  revert w. induction ts as [|x rest IH]; intros w Hsub; [apply R_refl|].
  simpl.
  pose proof (visit_district_ind x w (Hsub x ltac:(by left))) as Hstep.
  destruct (wk_raised _); [exact Hstep|].
  eapply R_trans; [exact Hstep|]. apply IH. intros y Hy. apply Hsub. by right.
Qed.

End WalkInduction.

(** X9: the walk removes nothing.  Whatever the service answers and
    whatever the operating system does with the writes, after
    [scrape_districts] every directory that was there is still a directory
    and every file that was there is still a file. *)
Theorem walk_keeps_paths (self : BhuNakshaExtractor) (hier : hierarchy)
    (svc : service) (target_districts : list string) (f : gmap string node) :
  keeps f (wk_fs (scrape_districts self hier svc target_districts f)).
Proof.
  unfold scrape_districts.
  destruct (first_list _) as [districts|]; [|apply keeps_refl].
  set (w0 := {| wk_fs := f; wk_trace := _; wk_raised := None |}).
  change (keeps (wk_fs w0)
            (wk_fs (visit_districts self hier svc (dict_of_items districts)
                      target_districts w0))).
  refine (visit_districts_ind self hier svc (dict_of_items districts)
            target_districts (fun w w' => keeps (wk_fs w) (wk_fs w'))
            _ _ _ _ _ _ target_districts w0 _); try done.
  - intros. apply keeps_refl.
  - intros ???. apply keeps_trans.
  - intros. apply keeps_refl.
  - intros. apply keeps_refl.
  - intros w dn f1 Hmk. by eapply makedirs_keeps.
  - intros. apply run_keeps.
Qed.

Lemma calls_app (l1 l2 : list walk_event) : calls (l1 ++ l2) = calls l1 ++ calls l2.
Proof. apply omap_app. Qed.

Lemma calls_talk (es : list walk_event) :
  Forall (fun e => is_call e = false) es → calls es = [].
Proof. induction 1 as [|e es He _ IH]; [done|]. by destruct e. Qed.

(** X10: the walk extracts for requested districts only.  Every call of
    [extract_and_save_village_data] that [scrape_districts] makes is for a
    district of the target list that the service lists under a non-empty
    code, writes below [data_<district>] (spaces as underscores), and gets
    the identifier that [get_village_gis_code] builds from that district
    code, a taluk code and a village code. *)
Theorem walk_calls_requested (self : BhuNakshaExtractor) (hier : hierarchy)
    (svc : service) (target_districts : list string) (f : gmap string node)
    (g : option string) (d t v out : string) :
  (g, d, t, v, out)
    ∈ calls (wk_trace (scrape_districts self hier svc target_districts f)) →
  d ∈ target_districts ∧
  out = district_dir_of d ∧
  ∃ districts district_code map_type_code taluk_code village_code,
    first_list (get_hierarchy_data hier 1 (code_str (category self) +:+ ","))
      = Some districts ∧
    dict_get d (dict_of_items districts) = Some district_code ∧
    district_code ≠ "" ∧
    g = get_village_gis_code self map_type_code (Some district_code)
          (Some taluk_code) (Some village_code).
Proof.
  unfold scrape_districts.
  destruct (first_list _) as [districts|] eqn:Hfirst.
  2:{ simpl. by intros ?%elem_of_nil. }
  set (w0 := {| wk_fs := f; wk_trace := _; wk_raised := None |}).
  pose proof (visit_districts_ind self hier svc (dict_of_items districts)
    target_districts
    (fun w w' =>
       ∃ new, wk_trace w' = wk_trace w ++ new ∧
         ∀ g d t v out, (g, d, t, v, out) ∈ calls new →
           d ∈ target_districts ∧ out = district_dir_of d ∧
           ∃ dc mt tc vc,
             dict_get d (dict_of_items districts) = Some dc ∧ dc ≠ "" ∧
             g = get_village_gis_code self mt (Some dc) (Some tc) (Some vc)))
    as Hind.
  assert (Hall : ∃ new,
            wk_trace (visit_districts self hier svc (dict_of_items districts)
                        target_districts w0) = wk_trace w0 ++ new ∧
            ∀ g d t v out, (g, d, t, v, out) ∈ calls new →
              d ∈ target_districts ∧ out = district_dir_of d ∧
              ∃ dc mt tc vc,
                dict_get d (dict_of_items districts) = Some dc ∧ dc ≠ "" ∧
                g = get_village_gis_code self mt (Some dc) (Some tc) (Some vc));
    [refine (Hind _ _ _ _ _ _ target_districts w0 _); [..|done]; clear Hind
    |clear Hind; destruct Hall as (new & Hnew & Hcalls)].
  - intros w. exists []. rewrite app_nil_r. split; [done|].
    by intros ????? ?%elem_of_nil.
  - intros w1 w2 w3 (n1 & H1 & Hc1) (n2 & H2 & Hc2). exists (n1 ++ n2).
    split; [by rewrite H2, H1, app_assoc|].
    intros g' d' t' v' out'. rewrite calls_app, elem_of_app. naive_solver.
  - intros w es Hes. exists es. split; [done|]. rewrite calls_talk by done.
    by intros ????? ?%elem_of_nil.
  - intros w e. exists []. simpl. rewrite app_nil_r. split; [done|].
    by intros ????? ?%elem_of_nil.
  - intros w dn f1 _. exists []. simpl. rewrite app_nil_r. split; [done|].
    by intros ????? ?%elem_of_nil.
  - intros w dn dc mt tn tc vn vc Hin Hget Hne gis r. eexists. split; [done|].
    intros g' d' t' v' out' Hc. simpl in Hc.
    apply list_elem_of_singleton in Hc. simplify_eq.
    split; [done|]. split; [done|]. by exists dc, mt, tc, vc.
  - rewrite Hnew, calls_app. simpl.
    intros Hc. destruct (Hcalls _ _ _ _ _ Hc) as (? & ? & dc & mt & tc & vc & ?).
    split; [done|]. split; [done|]. by exists districts, dc, mt, tc, vc.
Qed.

(** ** The target list in two parts *)

Section WalkAfter.
Variable self : BhuNakshaExtractor.
Variable hier : hierarchy.
Variable svc : service.

Lemma say_after (tr : list walk_event) (w : walk) (es : list walk_event) :
  say (after tr w) es = after tr (say w es).
Proof. unfold say, after. simpl. by rewrite app_assoc. Qed.

Lemma raise_after (tr : list walk_event) (w : walk) (e : walk_exn) :
  raise (after tr w) e = after tr (raise w e).
Proof. done. Qed.

Lemma visit_villages_after tr mt dc tc d t out vs w :
  visit_villages self svc mt dc tc d t out vs (after tr w)
  = after tr (visit_villages self svc mt dc tc d t out vs w).
Proof.
  revert w. induction vs as [|[vn vc] rest IH]; intros w; [done|]. simpl.
  destruct (out_raised _) as [e|].
  - unfold after. simpl. by rewrite app_assoc.
  - rewrite <-IH. f_equal. unfold after. simpl. by rewrite app_assoc.
Qed.

Lemma visit_taluk_after tr dc d out taluk w :
  visit_taluk self hier svc dc d out taluk (after tr w)
  = after tr (visit_taluk self hier svc dc d out taluk w).
Proof.
  destruct taluk as [tn tc]. unfold visit_taluk. rewrite say_after.
  destruct (first_list _); [|by rewrite say_after].
  destruct (get_hierarchy_data hier 3 _) as [[|? [|mts ?]]|];
    try apply raise_after.
  apply visit_villages_after.
Qed.

Lemma visit_taluks_after tr dc d out taluks w :
  visit_taluks self hier svc dc d out taluks (after tr w)
  = after tr (visit_taluks self hier svc dc d out taluks w).
Proof.
  revert w. induction taluks as [|taluk rest IH]; intros w; [done|]. simpl.
  rewrite visit_taluk_after. simpl.
  destruct (wk_raised _); [done|]. apply IH.
Qed.

Lemma visit_district_after tr all d w :
  visit_district self hier svc all d (after tr w)
  = after tr (visit_district self hier svc all d w).
Proof.
  unfold visit_district.
  destruct (dict_get d all) as [dc|]; [|by rewrite say_after].
  destruct (String.eqb dc ""); [by rewrite say_after|].
  rewrite say_after. simpl.
  destruct (makedirs (district_dir_of d) (wk_fs w)) as [e|f1];
    [apply raise_after|].
  match goal with
  | |- context [first_list ?r] => destruct (first_list r) as [taluks|]
  end.
  - rewrite <-visit_taluks_after. f_equal. unfold say, after. simpl.
    by rewrite <-!app_assoc.
  - unfold say, after. simpl. by rewrite <-!app_assoc.
Qed.

Lemma visit_districts_after tr all ts w :
  visit_districts self hier svc all ts (after tr w)
  = after tr (visit_districts self hier svc all ts w).
Proof.
  revert w. induction ts as [|x rest IH]; intros w; [done|]. simpl.
  rewrite visit_district_after. simpl.
  destruct (wk_raised _); [done|]. apply IH.
Qed.

Lemma visit_districts_app all ts1 ts2 w :
  wk_raised w = None →
  visit_districts self hier svc all (ts1 ++ ts2) w
  = match wk_raised (visit_districts self hier svc all ts1 w) with
    | Some _ => visit_districts self hier svc all ts1 w
    | None =>
        visit_districts self hier svc all ts2
          (visit_districts self hier svc all ts1 w)
    end.
Proof.
  revert w. induction ts1 as [|x rest IH]; intros w Hw; simpl.
  - by rewrite Hw.
  - destruct (wk_raised (visit_district self hier svc all x w)) eqn:Hx.
    + by rewrite Hx.
    + by apply IH.
Qed.

End WalkAfter.

(** X11: the target list can be given in two parts.  With a service that
    answers the same, [scrape_districts] on a target list makes the calls
    that it makes on a first part of the list, followed, when that walk
    returns, by those it makes on the rest from the file system that the
    first walk left; it ends with the same file system and the same
    exception, if any.  When the first part raises, nothing of the rest is
    looked at. *)
Theorem walk_split (self : BhuNakshaExtractor) (hier : hierarchy)
    (svc : service) (ts1 ts2 : list string) (f : gmap string node) :
  let w1 := scrape_districts self hier svc ts1 f in
  let w2 := scrape_districts self hier svc ts2 (wk_fs w1) in
  let w := scrape_districts self hier svc (ts1 ++ ts2) f in
  (∀ e, wk_raised w1 = Some e →
        wk_raised w = Some e ∧ wk_fs w = wk_fs w1 ∧
        List.filter is_call (wk_trace w) = List.filter is_call (wk_trace w1)) ∧
  (wk_raised w1 = None →
   wk_raised w = wk_raised w2 ∧ wk_fs w = wk_fs w2 ∧
   List.filter is_call (wk_trace w)
     = List.filter is_call (wk_trace w1) ++ List.filter is_call (wk_trace w2)).
Proof.
  intros w1 w2 w. subst w1 w2 w. unfold scrape_districts.
  destruct (first_list _) as [districts|]; [|by split].
  set (codes := code_str (category self) +:+ ",").
  set (all := dict_of_items districts).
  set (base := fun f0 : gmap string node =>
                 {| wk_fs := f0; wk_trace := []; wk_raised := None |}).
  assert (Hstart : ∀ ts f0,
            {| wk_fs := f0;
               wk_trace := [Say (Starting ts); GetHierarchyData 1 codes];
               wk_raised := None |}
            = after [Say (Starting ts); GetHierarchyData 1 codes] (base f0))
    by done.
  rewrite !Hstart, !visit_districts_after, visit_districts_app by done.
  set (V1 := visit_districts self hier svc all ts1 (base f)).
  cbn [after wk_fs wk_trace wk_raised].
  split.
  - intros e He. rewrite He. cbn [after wk_fs wk_trace wk_raised]. done.
  - intros Hnone. rewrite Hnone.
    assert (HV1 : V1 = after (wk_trace V1) (base (wk_fs V1))).
    { destruct V1 as [f0 tr0 r0]. simpl in Hnone. subst r0.
      unfold after, base. simpl. by rewrite app_nil_r. }
    assert (HV2 : visit_districts self hier svc all ts2 V1
                  = after (wk_trace V1)
                      (visit_districts self hier svc all ts2
                         (base (wk_fs V1)))).
    { rewrite <-visit_districts_after. by rewrite <-HV1. }
    rewrite HV2. cbn [after wk_fs wk_trace wk_raised].
    split; [done|]. split; [done|].
    simpl. by rewrite !filter_app.
Qed.

(** ** A taluk without a map type *)

(** A run with an invalid identifier asks the service for nothing and
    leaves every file as it is. *)
Lemma run_invalid_gis (self : BhuNakshaExtractor) (svc : service)
    (gis_code : option string) (d t v out : string) (f : gmap string node) :
  code_truthy gis_code = false →
  let r := extract_and_save_village_data self svc gis_code d t v out f in
  Forall (fun e => is_request e = false ∧ is_write e = false) (out_trace r) ∧
  ∀ q c, out_fs r !! q = Some (File c) ↔ f !! q = Some (File c).
Proof.
  intros Hg r. subst r.
  destruct (makedirs (taluk_dir t out) f) as [e|f1] eqn:Hmk.
  { unfold extract_and_save_village_data. rewrite Hmk. simpl.
    split; [by repeat constructor|done]. }
  pose proof (makedirs_spec _ _ _ Hmk) as (_ & _ & Hfiles).
  destruct (loaded (read_existing (read_refused svc) f1 (output_path t v out)))
    as [l|] eqn:Hl.
  2:{ unfold extract_and_save_village_data. rewrite Hmk.
      destruct (read_existing _ f1 _); try done. simpl.
      split; [by repeat constructor|done]. }
  destruct (run_shape self svc gis_code d t v out f f1 l Hmk Hl)
    as (banner & Hb & ->).
  unfold extract_from. rewrite Hg. simpl. split; [|done].
  constructor; [done|]. apply Forall_app. split; [|by repeat constructor].
  eapply Forall_impl; [|exact Hb]. by intros [] ?.
Qed.

Lemma gis_code_no_map_type (self : BhuNakshaExtractor)
    (district_code taluk_code village_code : option string) :
  get_village_gis_code self None district_code taluk_code village_code = None.
Proof.
  unfold get_village_gis_code. simpl.
  by destruct (code_truthy (category self)).
Qed.

Lemma village_events_app (l1 l2 : list walk_event) :
  village_events (l1 ++ l2) = village_events l1 ++ village_events l2.
Proof. unfold village_events. by rewrite omap_app, join_app. Qed.

Lemma visit_villages_no_map_type (self : BhuNakshaExtractor) (svc : service)
    (dc tc d t out : string) (vs : list (string * string)) (w : walk) :
  let w' := visit_villages self svc None dc tc d t out vs w in
  (∃ new, wk_trace w' = wk_trace w ++ new ∧
     (∀ g d' t' v' o, (g, d', t', v', o) ∈ calls new → g = None) ∧
     Forall (fun e => is_request e = false ∧ is_write e = false)
       (village_events new)) ∧
  ∀ q c, wk_fs w' !! q = Some (File c) ↔ wk_fs w !! q = Some (File c).
Proof.
  revert w. induction vs as [|[vn vc] rest IH]; intros w; simpl.
  { split; [|done]. exists []. rewrite app_nil_r. split; [done|].
    split; [by intros ????? ?%elem_of_nil|constructor]. }
  rewrite gis_code_no_map_type.
  destruct (run_invalid_gis self svc None d t vn out (wk_fs w) eq_refl)
    as [Hev Hfiles].
  set (r := extract_and_save_village_data self svc None d t vn out (wk_fs w))
    in *.
  assert (Hone : (∀ g d' t' v' o,
                    (g, d', t', v', o) ∈ calls [Village None d t vn out (out_trace r)]
                    → g = None)
                 ∧ Forall (fun e => is_request e = false ∧ is_write e = false)
                     (village_events [Village None d t vn out (out_trace r)])).
  { split.
    - intros g d' t' v' o Hc. simpl in Hc.
      apply list_elem_of_singleton in Hc. by simplify_eq.
    - unfold village_events. simpl. by rewrite app_nil_r. }
  destruct Hone as [Hc1 He1].
  destruct (out_raised r) as [e|].
  - simpl. split; [|done]. eexists. split; [done|]. done.
  - match goal with
    | |- context [visit_villages _ _ _ _ _ _ _ _ rest ?w1] =>
        destruct (IH w1) as ((new & Hnew & Hc2 & He2) & Hf2)
    end.
    simpl in *. split.
    + eexists (_ ++ new). split; [by rewrite Hnew, <-app_assoc|]. split.
      * intros g d' t' v' o. rewrite calls_app, elem_of_app.
        intros [?|?]; eauto.
      * rewrite village_events_app. by apply Forall_app.
    + intros q c. by rewrite Hf2.
Qed.

(** X12: a taluk without a map type yields nothing.  When the answer for
    the villages of a taluk has villages but no second list,
    [village_response[1]] raises [IndexError] before any village is looked
    at, and the walk ends there.  When the second list is empty, every
    village of the taluk is called with the identifier [None]: the walk
    asks the service for no village info, no plot list and no plot, and no
    file is created or changed. *)
Theorem taluk_without_map_type (self : BhuNakshaExtractor) (hier : hierarchy)
    (svc : service) (district_code district_name district_dir : string)
    (taluk_name taluk_code : string) (w : walk) :
  let response :=
    get_hierarchy_data hier 3
      (code_str (category self) +:+ "," +:+ district_code +:+ ","
       +:+ taluk_code +:+ ",") in
  let w' := visit_taluk self hier svc district_code district_name district_dir
              (taluk_name, taluk_code) w in
  (∀ it its, response = Some [it :: its] →
     wk_raised w' = Some IndexError ∧
     wk_fs w' = wk_fs w ∧
     calls (wk_trace w') = calls (wk_trace w)) ∧
  (∀ it its rest, response = Some ((it :: its) :: [] :: rest) →
     (∃ new, wk_trace w' = wk_trace w ++ new ∧
        (∀ g d t v o, (g, d, t, v, o) ∈ calls new → g = None) ∧
        Forall (fun e => is_request e = false ∧ is_write e = false)
          (village_events new)) ∧
     ∀ q c, wk_fs w' !! q = Some (File c) ↔ wk_fs w !! q = Some (File c)).
Proof.
  intros response w'. subst response w'. unfold visit_taluk. split.
  - intros it its ->. simpl. split; [done|]. split; [done|].
    by rewrite calls_app, app_nil_r.
  - intros it its rest ->. simpl.
    match goal with
    | |- context [visit_villages _ _ _ _ _ _ _ _ ?vs ?w1] =>
        destruct (visit_villages_no_map_type self svc district_code taluk_code
                    district_name taluk_name district_dir vs w1)
          as ((new & Hnew & Hc & He) & Hf)
    end.
    split; [|done].
    eexists (_ ++ new). split; [rewrite Hnew; simpl; by rewrite <-app_assoc|].
    split.
    + intros g d t v o. rewrite calls_app. simpl. eauto.
    + rewrite village_events_app. by apply Forall_app.
Qed.

(** ** Entries with the same name *)

Lemma dict_get_set (k' k c : string) (dict : list (string * string)) :
  dict_get k' (dict_set k c dict)
  = if String.eqb k' k then Some c else dict_get k' dict.
Proof.
  induction dict as [|[k0 c0] rest IH]; simpl; [done|].
  destruct (String.eqb k k0) eqn:Hk; simpl.
  - apply String.eqb_eq in Hk as ->. by destruct (String.eqb k' k0).
  - rewrite IH. destruct (String.eqb k' k0) eqn:Hk0; [|done].
    apply String.eqb_eq in Hk0 as ->. rewrite String.eqb_sym. by rewrite Hk.
Qed.

Lemma dict_get_none (k : string) (dict : list (string * string)) :
  dict_get k dict = None ↔ k ∉ dict.*1.
Proof.
  induction dict as [|[k0 c0] rest IH]; simpl.
  - split; [by intros _ ?%elem_of_nil|done].
  - rewrite not_elem_of_cons. destruct (String.eqb k k0) eqn:Hk.
    + apply String.eqb_eq in Hk as ->. split; [done|by intros [? _]].
    + apply String.eqb_neq in Hk. rewrite IH. naive_solver.
Qed.

Lemma dict_set_keys (k c : string) (dict : list (string * string)) :
  (dict_set k c dict).*1
  = match dict_get k dict with
    | Some _ => dict.*1
    | None => dict.*1 ++ [k]
    end.
Proof.
  induction dict as [|[k0 c0] rest IH]; [done|]. cbn [dict_set dict_get].
  destruct (String.eqb k k0) eqn:Hk; [done|].
  rewrite !fmap_cons, IH. by destruct (dict_get k rest).
Qed.

Lemma dict_set_nodup (k c : string) (dict : list (string * string)) :
  NoDup dict.*1 → NoDup (dict_set k c dict).*1.
Proof.
  intros Hnd. rewrite dict_set_keys.
  destruct (dict_get k dict) eqn:Hg; [done|].
  apply dict_get_none in Hg. apply list.NoDup_app. split; [done|].
  split; [|apply list.NoDup_singleton].
  intros x Hx ->%list_elem_of_singleton. done.
Qed.

Lemma dict_get_elem (k c : string) (dict : list (string * string)) :
  NoDup dict.*1 → (k, c) ∈ dict ↔ dict_get k dict = Some c.
Proof.
  induction dict as [|[k0 c0] rest IH]; simpl; intros Hnd.
  - split; [by intros ?%elem_of_nil|done].
  - apply list.NoDup_cons in Hnd as [Hk0 Hnd]. rewrite elem_of_cons.
    destruct (String.eqb k k0) eqn:Hk.
    + apply String.eqb_eq in Hk as ->. split.
      * intros [[= ->]|Hin]; [done|]. exfalso. apply Hk0.
        apply list_elem_of_fmap. by exists (k0, c).
      * intros [= ->]. by left.
    + apply String.eqb_neq in Hk. rewrite <-IH by done. naive_solver.
Qed.

Lemma dict_of_items_snoc (items : list item) (it : item) :
  dict_of_items (items ++ [it])
  = dict_set (value it) (code it) (dict_of_items items).
Proof. unfold dict_of_items. by rewrite fold_left_app. Qed.

Lemma dict_of_items_nodup (items : list item) : NoDup (dict_of_items items).*1.
Proof.
  induction items as [|it items IH] using rev_ind; [constructor|].
  rewrite dict_of_items_snoc. by apply dict_set_nodup.
Qed.

Lemma last_code_snoc (name : string) (items : list item) (it : item) :
  last_code name (items ++ [it])
  = if String.eqb (value it) name then Some (code it)
    else last_code name items.
Proof.
  unfold last_code. rewrite filter_app. simpl.
  destruct (String.eqb (value it) name); [|by rewrite app_nil_r].
  by rewrite last_snoc.
Qed.

(** A dict comprehension gives each name the code listed last. *)
Lemma dict_of_items_get (name : string) (items : list item) :
  dict_get name (dict_of_items items) = last_code name items.
Proof.
  induction items as [|it items IH] using rev_ind; [done|].
  rewrite dict_of_items_snoc, dict_get_set, last_code_snoc, IH.
  by rewrite String.eqb_sym.
Qed.

Lemma visit_villages_calls (self : BhuNakshaExtractor) (svc : service)
    (mt : option string) (dc tc d t out : string)
    (vs : list (string * string)) (w : walk) :
  wk_raised (visit_villages self svc mt dc tc d t out vs w) = None →
  ∃ new,
    wk_trace (visit_villages self svc mt dc tc d t out vs w)
      = wk_trace w ++ new ∧
    calls new = village_call self mt dc tc d t out <$> vs.
Proof.
  revert w. induction vs as [|[vn vc] rest IH]; intros w.
  { intros _. exists []. simpl. by rewrite app_nil_r. }
  cbn [visit_villages].
  destruct (out_raised _) as [e|] eqn:Hr; [done|].
  intros Hret. destruct (IH _ Hret) as (new & Hnew & Hc).
  eexists (_ :: new). split.
  - rewrite Hnew. cbn [wk_trace]. by rewrite <-app_assoc.
  - simpl. by rewrite Hc.
Qed.

(** X13: villages that are listed under the same name are extracted once.
    The villages of a taluk go through a dict keyed by the name (line 239),
    so when the walk of a taluk returns it has called
    [extract_and_save_village_data] once for every name, in the order in
    which the names first appear, with the identifier built from the code
    that is listed last under that name; an entry with the same name and
    another code is never extracted. *)
Theorem same_name_extracted_once (self : BhuNakshaExtractor)
    (hier : hierarchy) (svc : service)
    (district_code district_name district_dir : string)
    (taluk_name taluk_code : string) (w : walk)
    (it : item) (its map_types : list item) (rest : list (list item)) :
  get_hierarchy_data hier 3
    (code_str (category self) +:+ "," +:+ district_code +:+ ","
     +:+ taluk_code +:+ ",")
    = Some ((it :: its) :: map_types :: rest) →
  wk_raised (visit_taluk self hier svc district_code district_name
               district_dir (taluk_name, taluk_code) w) = None →
  let w' := visit_taluk self hier svc district_code district_name district_dir
              (taluk_name, taluk_code) w in
  let map_type_code := code <$> head map_types in
  let all_villages := dict_of_items (it :: its) in
  ∃ new,
    wk_trace w' = wk_trace w ++ new ∧
    calls new
      = village_call self map_type_code district_code taluk_code
          district_name taluk_name district_dir <$> all_villages ∧
    NoDup all_villages.*1 ∧
    ∀ name c, (name, c) ∈ all_villages ↔ last_code name (it :: its) = Some c.
Proof.
  intros Hresp Hret w' mt vs. subst w'. revert Hret.
  unfold visit_taluk. rewrite Hresp. cbn [first_list].
  assert (Hmt : match map_types with
                | [] => None
                | m :: _ => Some (code m)
                end = mt) by (by destruct map_types).
  rewrite Hmt. fold vs.
  intros (new & Hnew & Hc)%visit_villages_calls.
  eexists (_ ++ new). split; [rewrite Hnew; simpl; by rewrite <-app_assoc|].
  split; [by rewrite calls_app|].
  split; [apply dict_of_items_nodup|].
  intros name c. subst vs.
  rewrite dict_get_elem by apply dict_of_items_nodup.
  by rewrite dict_of_items_get.
Qed.

Lemma same_name_extracted_once_witness :
  ∃ new,
    wk_trace (visit_taluk ex_self ex_hier
                (ex_remote ex_both ex_detail always_ok) "25" "Pune" "data_Pune"
                ("Haveli", "03") ex_walk_start)
      = wk_trace ex_walk_start ++ new ∧
    calls new = [(Some "UV25030418", "Pune", "Haveli", "Wadgaon", "data_Pune")].
Proof.
  destruct (same_name_extracted_once ex_self ex_hier
              (ex_remote ex_both ex_detail always_ok) "25" "Pune" "data_Pune"
              "Haveli" "03" ex_walk_start
              {| value := "Wadgaon"; code := "0417" |}
              [{| value := "Wadgaon"; code := "0418" |}]
              [{| value := "Village"; code := "V" |}] []
              eq_refl ltac:(vm_compute; reflexivity))
    as (new & Hnew & Hc & _).
  exists new. split; [exact Hnew|]. rewrite Hc. vm_compute. reflexivity.
Defined.

Lemma walk_calls_requested_witness :
  "Pune" ∈ ["Pune"] ∧
  "data_Pune" = district_dir_of "Pune" ∧
  ∃ districts district_code map_type_code taluk_code village_code,
    first_list (get_hierarchy_data ex_hier 1 (code_str (category ex_self) +:+ ","))
      = Some districts ∧
    dict_get "Pune" (dict_of_items districts) = Some district_code ∧
    district_code ≠ "" ∧
    Some "UV25030418"
      = get_village_gis_code ex_self map_type_code (Some district_code)
          (Some taluk_code) (Some village_code).
Proof.
  apply (walk_calls_requested ex_self ex_hier
           (ex_remote ex_both ex_detail always_ok) ["Pune"] ex_empty
           (Some "UV25030418") "Pune" "Haveli" "Wadgaon" "data_Pune").
  vm_compute. apply list_elem_of_here.
Defined.
